(** * Win Tala storefront client (src/App.jsx): session store, views and
    price formatting, embedded shallowly and checked against its
    specification.

    JavaScript values are an inductive type; asynchronous functions and
    promise chains are programs of a small free monad whose only blocking
    node is an HTTP request, so that the state of a component can be
    observed while a request is outstanding. *)

From Stdlib Require Import ZArith List Bool Lia.
From Stdlib Require Import Strings.String Strings.Ascii.
From Stdlib Require DecimalPos DecimalN.
Import ListNotations.
Local Open Scope string_scope.
Set Warnings "-register-all".

(* ================================================================== *)
(** ** JavaScript values *)

Module JS.

(** Strings are kept as their UTF-8 bytes.  A number is integer-valued
    ([VNum z] is the double whose value is [z]); fractional doubles, NaN
    and the infinities are outside the model. *)
Inductive value : Type :=
| VNull
| VUndefined
| VBool (b : bool)
| VNum (z : Z)
| VStr (s : string)
| VArr (items : list value)
| VObj (fields : list (string * value)).

(** What a [throw] carries. *)
Inductive exn : Type :=
| TypeError
| AxiosError (reason : value).

(** [v == null]: loose equality with null holds of null and undefined
    only. *)
Definition loose_eq_null (v : value) : bool :=
  match v with
  | VNull | VUndefined => true
  | _ => false
  end.

(** ToBoolean. *)
Definition truthy (v : value) : bool :=
  match v with
  | VNull | VUndefined => false
  | VBool b => b
  | VNum z => negb (z =? 0)%Z
  | VStr s => negb (s =? "")%string
  | VArr _ | VObj _ => true
  end.

(** [!v] *)
Definition not_ (v : value) : bool := negb (truthy v).

Fixpoint lookup (k : string) (fields : list (string * value)) : option value :=
  match fields with
  | [] => None
  | (k', v) :: rest => if (k =? k')%string then Some v else lookup k rest
  end.

(** [o.k] for the own data properties the program reads ([data], [user],
    [is_admin], [id], [items], [count], ...): reading from null or
    undefined throws a TypeError, a missing property is undefined. *)
Definition get (o : value) (k : string) : exn + value :=
  match o with
  | VNull | VUndefined => inl TypeError
  | VObj fields =>
      match lookup k fields with
      | Some v => inr v
      | None => inr VUndefined
      end
  | _ => inr VUndefined
  end.

(** [o.k] where [o] is known to be truthy at the point of the read, so
    that it cannot throw. *)
Definition get_total (o : value) (k : string) : value :=
  match get o k with
  | inr v => v
  | inl _ => VUndefined
  end.

End JS.
Import JS.

(* ================================================================== *)
(** ** [Intl.NumberFormat('fa-IR')] *)

Module Intl.

(** One output glyph of the formatter for an integer. *)
Inductive glyph : Type :=
| Digit (d : nat)
| GroupSep.

(** Extended Arabic-Indic digits U+06F0 .. U+06F9. *)
Definition fa_digit (d : nat) : string :=
  match d with
  | 0 => "۰" | 1 => "۱" | 2 => "۲" | 3 => "۳" | 4 => "۴"
  | 5 => "۵" | 6 => "۶" | 7 => "۷" | 8 => "۸" | _ => "۹"
  end.

(** Arabic thousands separator U+066C. *)
Definition fa_group_sep : string := "٬".

(** The minus sign of the locale: the left-to-right mark U+200E and the
    minus sign U+2212, written out as their UTF-8 bytes (E2 80 8E,
    E2 88 92) because the mark does not show. *)
Definition fa_minus : string :=
  String (ascii_of_nat 226) (String (ascii_of_nat 128) (String (ascii_of_nat 142)
  (String (ascii_of_nat 226) (String (ascii_of_nat 136) (String (ascii_of_nat 146)
  EmptyString))))).

Definition render_glyph (g : glyph) : string :=
  match g with
  | Digit d => fa_digit d
  | GroupSep => fa_group_sep
  end.

Fixpoint render (gs : list glyph) : string :=
  match gs with
  | [] => ""
  | g :: rest => render_glyph g ++ render rest
  end.

(** Decimal digits, most significant first. *)
Fixpoint uint_digits (u : Decimal.uint) : list nat :=
  match u with
  | Decimal.Nil => []
  | Decimal.D0 r => 0 :: uint_digits r
  | Decimal.D1 r => 1 :: uint_digits r
  | Decimal.D2 r => 2 :: uint_digits r
  | Decimal.D3 r => 3 :: uint_digits r
  | Decimal.D4 r => 4 :: uint_digits r
  | Decimal.D5 r => 5 :: uint_digits r
  | Decimal.D6 r => 6 :: uint_digits r
  | Decimal.D7 r => 7 :: uint_digits r
  | Decimal.D8 r => 8 :: uint_digits r
  | Decimal.D9 r => 9 :: uint_digits r
  end.

Definition digits (n : N) : list nat := uint_digits (N.to_uint n).

(** Primary grouping of three, no minimum number of grouping digits: a
    separator follows every digit that has a positive multiple of three
    digits after it. *)
Fixpoint group (ds : list nat) : list glyph :=
  match ds with
  | [] => []
  | d :: rest =>
      Digit d ::
      (if ((0 <? List.length rest) && (List.length rest mod 3 =? 0))%nat
       then GroupSep :: group rest
       else group rest)
  end.

Definition format_nat (n : N) : string := render (group (digits n)).

(** The integers every one of which is a double, and which the platform
    writes with all their digits: those of absolute value up to 2^53.
    Beyond, a number is written with the shortest digits that tell its
    double from the next, and zeros after them. *)
Definition safe (z : Z) : bool := (Z.abs z <=? 2 ^ 53)%Z.

(** Modelled from the platform (ECMA-402 with the CLDR data of fa-IR):
    [new Intl.NumberFormat('fa-IR').format(z)] for a safe integer. *)
Definition format_int (z : Z) : string :=
  if (z <? 0)%Z then fa_minus ++ format_nat (Z.abs_N z)
  else format_nat (Z.abs_N z).

End Intl.

(* ================================================================== *)
(** ** formatPrice (App.jsx line 159) *)

Section FormatPrice.

(** What the platform formatter prints for an argument that is not a
    number (it coerces it first), and for a number that is not a safe
    integer. *)
Variable format_coerced : value -> string.

Definition NumberFormat_fa_IR_format (v : value) : string :=
  match v with
  | VNum z => if Intl.safe z then Intl.format_int z else format_coerced v
  | _ => format_coerced v
  end.

Definition formatPrice (v : value) : string :=
  if loose_eq_null v then "—"
  else NumberFormat_fa_IR_format v ++ " تومان".

End FormatPrice.

(* ================================================================== *)
(** ** Asynchronous programs *)

Module Async.

Inductive method : Type := GET | POST.

(** [axios.get(url)] carries no body: [body] is then undefined. *)
Record request : Type := Request { meth : method; url : string; body : value }.

(** The part of an axios response the program reads. *)
Record response : Type := Response { data : value }.

(** How the promise of a request settles. *)
Inductive outcome : Type :=
| Resolved (r : response)
| Rejected (e : exn).

(** What a run leaves behind, in order: requests sent, blocking alerts,
    navigations, and the component state after each state setter. *)
Inductive event (S : Type) : Type :=
| Requested (rq : request)
| Alerted (msg : string)
| Navigated (path : string)
| Stored (s : S).
Arguments Requested {S} rq.
Arguments Alerted {S} msg.
Arguments Navigated {S} path.
Arguments Stored {S} s.

(** A program over component state [S] with result [A].  [Http] is the
    only node at which control returns to the event loop; everything
    between two of them runs to completion. *)
Inductive prog (S A : Type) : Type :=
| Ret (a : A)
| Throw (e : exn)
| Upd (f : S -> S) (k : prog S A)
| Alert (msg : string) (k : prog S A)
| Navigate (path : string) (k : prog S A)
| Http (rq : request) (k : outcome -> prog S A).
Arguments Ret {S A} a.
Arguments Throw {S A} e.
Arguments Upd {S A} f k.
Arguments Alert {S A} msg k.
Arguments Navigate {S A} path k.
Arguments Http {S A} rq k.

Section Combinators.
Context {S : Type}.

Fixpoint bind {A B} (m : prog S A) (f : A -> prog S B) : prog S B :=
  match m with
  | Ret a => f a
  | Throw e => Throw e
  | Upd g k => Upd g (bind k f)
  | Alert msg k => Alert msg (bind k f)
  | Navigate path k => Navigate path (bind k f)
  | Http rq k => Http rq (fun o => bind (k o) f)
  end.

(** [try { m } catch (err) { h err }] *)
Fixpoint try_catch {A} (m : prog S A) (h : exn -> prog S A) : prog S A :=
  match m with
  | Ret a => Ret a
  | Throw e => h e
  | Upd g k => Upd g (try_catch k h)
  | Alert msg k => Alert msg (try_catch k h)
  | Navigate path k => Navigate path (try_catch k h)
  | Http rq k => Http rq (fun o => try_catch (k o) h)
  end.

(** A property read that may throw, inside a program. *)
Definition lift {A} (r : exn + A) : prog S A :=
  match r with
  | inl e => Throw e
  | inr a => Ret a
  end.

(** [p.then(f)] *)
Definition then_ {A B} (p : prog S A) (f : A -> prog S B) : prog S B :=
  bind p f.

(** [p.catch(h)]: the promise of [p]'s value, or of [h]'s when [p]
    rejects. *)
Definition catch_ {A B} (p : prog S A) (h : exn -> prog S B)
  : prog S (A + B) :=
  try_catch (bind p (fun a => Ret (inl a)))
            (fun e => bind (h e) (fun b => Ret (inr b))).

(** [p.finally(h)]: [h] runs once, however [p] settles, and [p]'s
    settlement is kept unless [h] itself throws. *)
Fixpoint finally_ {A} (p : prog S A) (h : prog S unit) : prog S A :=
  match p with
  | Ret a => bind h (fun _ => Ret a)
  | Throw e => bind h (fun _ => Throw e)
  | Upd g k => Upd g (finally_ k h)
  | Alert msg k => Alert msg (finally_ k h)
  | Navigate path k => Navigate path (finally_ k h)
  | Http rq k => Http rq (fun o => finally_ (k o) h)
  end.

Definition axios (m : method) (u : string) (b : value) : prog S response :=
  Http (Request m u b)
       (fun o => match o with
                 | Resolved r => Ret r
                 | Rejected e => Throw e
                 end).

Definition axios_get (u : string) : prog S response := axios GET u VUndefined.
Definition axios_post (u : string) (b : value) : prog S response :=
  axios POST u b.

End Combinators.

(** *** Running a program *)

Inductive status (S A : Type) : Type :=
| Finished (r : exn + A)
| Blocked (rq : request) (k : outcome -> prog S A).
Arguments Finished {S A} r.
Arguments Blocked {S A} rq k.

Record config (S A : Type) : Type :=
  Config { st : S; trace : list (event S); now : status S A }.
Arguments Config {S A} st trace now.
Arguments st {S A} c.
Arguments trace {S A} c.
Arguments now {S A} c.

Section Run.
Context {S A : Type}.

(** Run to completion up to the next request. *)
Fixpoint advance (m : prog S A) (s : S) (t : list (event S)) : config S A :=
  match m with
  | Ret a => Config s t (Finished (inr a))
  | Throw e => Config s t (Finished (inl e))
  | Upd f k => advance k (f s) (t ++ [Stored (f s)])
  | Alert msg k => advance k s (t ++ [Alerted msg])
  | Navigate path k => advance k s (t ++ [Navigated path])
  | Http rq k => Config s (t ++ [Requested rq]) (Blocked rq k)
  end.

Definition start (m : prog S A) (s : S) : config S A := advance m s [].

(** The outstanding request settles and the program resumes. *)
Definition settle (o : outcome) (c : config S A) : config S A :=
  match now c with
  | Blocked _ k => advance (k o) (st c) (trace c)
  | Finished _ => c
  end.

Definition run (os : list outcome) (m : prog S A) (s : S) : config S A :=
  fold_left (fun c o => settle o c) os (start m s).

Definition outstanding (c : config S A) : bool :=
  match now c with
  | Blocked _ _ => true
  | Finished _ => false
  end.

End Run.

(** Programs that end fulfilled however their requests settle. *)
Inductive never_throws {S A : Type} : prog S A -> Prop :=
| nt_ret (a : A) : never_throws (Ret a)
| nt_upd (f : S -> S) (k : prog S A) :
    never_throws k -> never_throws (Upd f k)
| nt_alert (msg : string) (k : prog S A) :
    never_throws k -> never_throws (Alert msg k)
| nt_navigate (path : string) (k : prog S A) :
    never_throws k -> never_throws (Navigate path k)
| nt_http (rq : request) (k : outcome -> prog S A) :
    (forall o, never_throws (k o)) -> never_throws (Http rq k).

(** A configuration that has not failed and cannot: it ended fulfilled,
    or waits with a continuation that never throws. *)
Definition sound {S A : Type} (c : config S A) : Prop :=
  match now c with
  | Finished (inl _) => False
  | Finished (inr _) => True
  | Blocked _ k => forall o, never_throws (k o)
  end.

Definition requests {S} (t : list (event S)) : list request :=
  flat_map (fun e => match e with Requested rq => [rq] | _ => [] end) t.

Definition alerts {S} (t : list (event S)) : list string :=
  flat_map (fun e => match e with Alerted m => [m] | _ => [] end) t.

Definition stores {S} (t : list (event S)) : list S :=
  flat_map (fun e => match e with Stored s => [s] | _ => [] end) t.

End Async.
Import Async.

Notation "x <- m ;; k" := (bind m (fun x => k))
  (at level 61, m at next level, right associativity).
Notation "m ;;; k" := (bind m (fun _ => k))
  (at level 61, right associativity).

(* ================================================================== *)
(** ** AuthProvider (App.jsx lines 18-42) *)

Module Auth.

Record store : Type := Store { user : value; loading : bool }.

(** [useState(null)], [useState(true)] *)
Definition init : store := Store VNull true.

Definition setUser (v : value) : prog store unit :=
  Upd (fun s => Store v (loading s)) (Ret tt).

Definition setLoading (b : bool) : prog store unit :=
  Upd (fun s => Store (user s) b) (Ret tt).

(** The mount effect (line 23):
    [axios.get('/auth/me').then(r=>{ setUser(r.data) }).catch(()=>{})
          .finally(()=>setLoading(false))] *)
Definition initialize : prog store (unit + unit) :=
  finally_
    (catch_ (then_ (axios_get "/auth/me") (fun r => setUser (data r)))
            (fun _ => Ret tt))
    (setLoading false).

(** Lines 26-30.  The parameter is destructured as [{email,password}]. *)
Definition login (credentials : value) : prog store value :=
  email <- lift (get credentials "email") ;;
  password <- lift (get credentials "password") ;;
  r <- axios_post "/auth/login"
         (VObj [("email", email); ("password", password)]) ;;
  u <- lift (get (data r) "user") ;;
  setUser u ;;;
  Ret (data r).

(** Lines 31-34. *)
Definition logout : prog store unit :=
  axios_post "/auth/logout" VUndefined ;;;
  setUser VNull.

(** Lines 35-39. *)
Definition register (payload : value) : prog store value :=
  r <- axios_post "/auth/register" payload ;;
  u <- lift (get (data r) "user") ;;
  setUser u ;;;
  Ret (data r).

End Auth.

(* ================================================================== *)
(** ** React: rendered trees and effect dependencies *)

Module React.

(** The rendered tree, event handlers left out. *)
Inductive node : Type :=
| Text (s : string)
| Expr (v : value)
| Elem (tag className : string) (children : list node)
| Link (to className : string) (children : list node)
| Img (src alt : value) (className : string)
| Button (disabled : bool) (className : string) (children : list node).

Section UseEffect.
Context {D : Type} (same : D -> D -> bool).

(** [useEffect(f, deps)]: [f] runs after the first render, and after a
    later render whose dependencies differ from the previous render's. *)
Definition due (prev : option D) (next : D) : bool :=
  match prev with
  | None => true
  | Some d => negb (same d next)
  end.

(** The dependencies at which the effect runs, along successive renders
    of one mounted component. *)
Fixpoint fired (prev : option D) (renders : list D) : list D :=
  match renders with
  | [] => []
  | d :: rest => (if due prev d then [d] else []) ++ fired (Some d) rest
  end.

End UseEffect.

End React.
Import React.

(** [a || b] *)
Definition or_ (a b : value) : value := if truthy a then a else b.

(** A component whose state is one [useState] cell. *)
Definition setCell (v : value) : prog value unit := Upd (fun _ => v) (Ret tt).

(* ================================================================== *)
(** ** Views *)

(** Lines 89-95. *)
Module CartIcon.
Definition init : value := VNum 0.
Definition setCount := setCell.
Definition effect : prog value (unit + unit) :=
  catch_ (then_ (axios_get "/cart/count")
                (fun r => c <- lift (get (data r) "count") ;; setCount c))
         (fun _ => Ret tt).
End CartIcon.

(** Lines 97-107. *)
Module ProfileMenu.
Definition login_link : node := Link "/login" "mr-4" [Text "ورود / ثبت‌نام"].
Definition render (user : value) : node :=
  if not_ user then login_link
  else
    Elem "div" "flex items-center mr-4"
      [Elem "span" "ml-2" [Expr (get_total user "name")];
       Button false "text-sm px-2 py-1 border rounded" [Text "خروج"]].
End ProfileMenu.

(** Lines 109-115. *)
Module Home.
Record state : Type := State { products : value; categories : value }.
Definition init : state := State (VArr []) (VArr []).
Definition setProducts (v : value) : prog state unit :=
  Upd (fun s => State v (categories s)) (Ret tt).
Definition setCategories (v : value) : prog state unit :=
  Upd (fun s => State (products s) v) (Ret tt).
Definition effect_categories : prog state (unit + unit) :=
  catch_ (then_ (axios_get "/categories") (fun r => setCategories (data r)))
         (fun _ => Ret tt).
Definition effect_products : prog state (unit + unit) :=
  catch_ (then_ (axios_get "/products?limit=24")
                (fun r => setProducts (data r)))
         (fun _ => Ret tt).
End Home.

(** Lines 161-164. *)
Module CategoryPage.
Definition init : value := VArr [].
Definition setProducts := setCell.
Definition endpoint (id : string) : string :=
  "/categories/" ++ id ++ "/products".
Definition category_products (id : string) : request :=
  Request GET (endpoint id) VUndefined.
Definition effect (id : string) : prog value (unit + unit) :=
  catch_ (then_ (axios_get (endpoint id)) (fun r => setProducts (data r)))
         (fun _ => Ret tt).
(** The requests sent along successive renders with the given values of
    the route parameter; the dependency list is [[id]]. *)
Definition requests_of_renders (ids : list string) : list request :=
  flat_map (fun id => requests (trace (start (effect id) init)))
           (fired String.eqb None ids).
End CategoryPage.

(** Lines 175-186. *)
Module ProductDetails.
Record state : Type := State { p : value; adding : bool }.
Definition init : state := State VNull false.
Definition setP (v : value) : prog state unit :=
  Upd (fun s => State v (adding s)) (Ret tt).
Definition setAdding (b : bool) : prog state unit :=
  Upd (fun s => State (p s) b) (Ret tt).
Definition effect (id : string) : prog state (unit + unit) :=
  catch_ (then_ (axios_get ("/products/" ++ id)) (fun r => setP (data r)))
         (fun _ => Ret tt).
(** The request [axios.post('/cart/add',{product_id:p.id, qty:1})]. *)
Definition cart_add (id : value) : request :=
  Request POST "/cart/add" (VObj [("product_id", id); ("qty", VNum 1)]).
(** [addToCart] closes over the [p] of the render that built it. *)
Definition addToCart (p : value) : prog state unit :=
  setAdding true ;;;
  id <- lift (get p "id") ;;
  catch_ (axios_post (url (cart_add id)) (body (cart_add id)))
         (fun _ => Ret tt) ;;;
  setAdding false.

Section Render.
Variable format_coerced : value -> string.

Definition button (s : state) : node :=
  Button (adding s) "px-4 py-2 rounded shadow border"
    [Text (if adding s then "در حال اضافه..." else "افزودن به سبد")].

Definition render (s : state) : node :=
  if not_ (p s) then Elem "div" "p-6" [Text "در حال بارگذاری..."]
  else
    Elem "div" "max-w-5xl mx-auto p-4 grid grid-cols-1 md:grid-cols-2 gap-6"
      [Elem "div" "bg-white p-4 rounded shadow"
         [Img (or_ (get_total (p s) "image") (VStr "/placeholder.png"))
              (get_total (p s) "title") "w-full h-80 object-contain"];
       Elem "div" ""
         [Elem "h1" "text-2xl font-bold" [Expr (get_total (p s) "title")];
          Elem "p" "mt-2"
            [Text "وزن: "; Expr (get_total (p s) "weight"); Text " گرم"];
          Elem "div" "mt-4 text-2xl font-extrabold"
            [Text (formatPrice format_coerced (get_total (p s) "price"))];
          Elem "div" "mt-6" [button s];
          Elem "div" "mt-6 text-sm text-gray-600"
            [Text "ارسال: ۲۴-۴۸ ساعت | تضمین اصالت"]]].
End Render.

(** The buttons of a tree, in document order. *)
Fixpoint buttons (n : node) : list bool :=
  match n with
  | Button d _ _ => [d]
  | Elem _ _ kids | Link _ _ kids =>
      (fix go (l : list node) : list bool :=
         match l with
         | [] => []
         | k :: r => (buttons k ++ go r)%list
         end) kids
  | _ => []
  end.
End ProductDetails.

(** Lines 206-208. *)
Module CartPage.
Definition init : value := VArr [].
Definition setItems := setCell.
Definition effect : prog value (unit + unit) :=
  catch_ (then_ (axios_get "/cart")
                (fun r => items <- lift (get (data r) "items") ;; setItems items))
         (fun _ => Ret tt).
End CartPage.

(** Lines 232-237 and 253-259: the submit handlers, over the session
    store they act on. *)
Module LoginPage.
Definition submit (email password : string) : prog Auth.store unit :=
  try_catch
    (Auth.login (VObj [("email", VStr email); ("password", VStr password)]) ;;;
     Navigate "/" (Ret tt))
    (fun _ => Alert "ورود ناموفق" (Ret tt)).
End LoginPage.

Module RegisterPage.
Definition submit (name email password : string) : prog Auth.store unit :=
  try_catch
    (Auth.register (VObj [("name", VStr name); ("email", VStr email);
                          ("password", VStr password)]) ;;;
     Navigate "/" (Ret tt))
    (fun _ => Alert "ثبت‌نام ناموفق" (Ret tt)).
End RegisterPage.

(** Lines 273-287. *)
Module AdminPanel.
Definition access_denied : node := Elem "div" "p-6" [Text "دسترسی ندارید"].
Definition panel : node :=
  Elem "div" "max-w-6xl mx-auto p-4"
    [Elem "h2" "text-xl font-semibold mb-4" [Text "پنل مدیریت"];
     Elem "p" "text-sm text-gray-600"
       [Text "اینجا می‌تونی محصولات اضافه/ویرایش، سفارش‌ها و کاربران رو مدیریت کنی. (رابط API در بک‌اند)"];
     Elem "div" "mt-4 grid grid-cols-1 md:grid-cols-2 gap-4"
       [Elem "div" "border rounded p-4 bg-white"
          [Elem "h3" "font-medium mb-2" [Text "محصولات"];
           Link "/admin/products" "text-sm underline" [Text "مدیریت محصولات"]];
        Elem "div" "border rounded p-4 bg-white"
          [Elem "h3" "font-medium mb-2" [Text "سفارش‌ها"];
           Link "/admin/orders" "text-sm underline" [Text "مدیریت سفارش‌ها"]]]].
(** [!user || !user.is_admin]; the second operand is read only when the
    first is false, that is when [user] is truthy. *)
Definition denied (user : value) : bool :=
  if not_ user then true else not_ (get_total user "is_admin").
Definition render (user : value) : node :=
  if denied user then access_denied else panel.
(** The component has no [useEffect] and no handler: nothing it runs. *)
Definition effects (user : value) : list (prog unit unit) := [].
Definition requests_of_render (user : value) : list request :=
  flat_map (fun m => requests (trace (start m tt))) (effects user).
End AdminPanel.

(** Lines 293-299. *)
Module App.
Definition init : value := VArr [].
Definition setCategories := setCell.
Definition fallback : value :=
  VArr [VObj [("id", VStr "1"); ("name", VStr "زیورآلات");
              ("children",
               VArr [VObj [("id", VStr "11"); ("name", VStr "گردنبند")];
                     VObj [("id", VStr "12"); ("name", VStr "انگشتر")]])];
        VObj [("id", VStr "2"); ("name", VStr "سکه")]].
Definition effect : prog value (unit + unit) :=
  catch_ (then_ (axios_get "/categories/navigation")
                (fun r => setCategories (data r)))
         (fun _ => setCategories fallback).
End App.

(** A user, her credentials and the payload the API answers her login
    with, to try the program on. *)
Module Sample.
Definition sara : value :=
  VObj [("id", VNum 7); ("name", VStr "Sara");
        ("email", VStr "sara@example.com"); ("is_admin", VBool false)].

Definition credentials : value :=
  VObj [("email", VStr "sara@example.com"); ("password", VStr "secret")].

Definition payload : value := VObj [("user", sara); ("token", VStr "t")].

Definition ring : value :=
  VObj [("id", VNum 42); ("title", VStr "ring"); ("weight", VNum 3);
        ("price", VNum 1234567)].

End Sample.

(* ================================================================== *)
(** ** Vocabulary of the specification *)

Module Spec.







(** How often a flag goes from [a] to [b] along its successive values. *)
Fixpoint transitions (a b : bool) (l : list bool) : nat :=
  match l with
  | x :: (y :: _) as r =>
      (if Bool.eqb x a && Bool.eqb y b then 1 else 0) + transitions a b r
  | _ => 0
  end.

(** The loading flag from a state on, along the states a run stored. *)
Definition loading_history (s : Auth.store) (c : config Auth.store (unit + unit))
  : list bool :=
  map Auth.loading (s :: stores (trace c)).

(** One operation of the session store, with the way its request
    settles. *)
Inductive op : Type :=
| Initialize (o : outcome)
| Login (credentials : value) (o : outcome)
| Register (payload : value) (o : outcome)
| Logout (o : outcome).

Definition perform (x : op) (s : Auth.store) : Auth.store :=
  match x with
  | Initialize o => st (run [o] Auth.initialize s)
  | Login c o => st (run [o] (Auth.login c) s)
  | Register p o => st (run [o] (Auth.register p) s)
  | Logout o => st (run [o] Auth.logout s)
  end.

(** The states the store has been in after each of a list of
    operations, the starting state first. *)
Fixpoint states (ops : list op) (s : Auth.store) : list Auth.store :=
  s :: match ops with
       | [] => []
       | x :: rest => states rest (perform x s)
       end.

(** The user the API hands out is a record, or no user at all (null or
    undefined); any other truthy value does as well.  What this leaves
    out is a value that is falsy without being null or undefined:
    [false], [0] or the empty string. *)
Definition user_shaped (v : value) : bool := loose_eq_null v || truthy v.

(** The responses of an operation's request carry such a user:
    [/auth/me] answers one, [/auth/login] and [/auth/register] a payload
    whose [user] is one. *)
Definition well_shaped (x : op) : bool :=
  match x with
  | Initialize (Resolved r) => user_shaped (data r)
  | Login _ (Resolved r) | Register _ (Resolved r) =>
      match get (data r) "user" with
      | inr u => user_shaped u
      | inl _ => true
      end
  | _ => true
  end.

Definition absent (v : value) : Prop := loose_eq_null v = true.

(** A fetch whose request to [u] fails with [e] from state [s]: the one
    request was sent and no other, nothing was shown to the user, no
    state setter ran, the state is as it was and the promise chain ends
    fulfilled. *)
Definition degrades_silently {S A : Type}
  (fetch : prog S A) (u : string) (s : S) (e : exn) : Prop :=
  let c := run [Rejected e] fetch s in
  requests (trace c) = [Request GET u VUndefined]
  /\ alerts (trace c) = []
  /\ stores (trace c) = []
  /\ st c = s
  /\ exists v, now c = Finished (inr v).

(** The profile menu offers to log in. *)
Definition logged_out (s : Auth.store) : Prop :=
  ProfileMenu.render (Auth.user s) = ProfileMenu.login_link.

Definition consistent (s : Auth.store) : Prop :=
  absent (Auth.user s) <-> logged_out s.

(** A login or register response that carries a payload to read [user]
    from. *)
Definition carries_payload (o : outcome) : Prop :=
  match o with
  | Resolved r => loose_eq_null (data r) = false
  | Rejected _ => True
  end.

End Spec.

From Stdlib Require DecimalString.

(** The navigations of a run, in order. *)
Definition navigations {S : Type} (t : list (event S)) : list string :=
  flat_map (fun e => match e with Navigated p => [p] | _ => [] end) t.

(** A run that sent one request at most and showed and navigated
    nothing. *)
Definition quiet {S A : Type} (c : config S A) : Prop :=
  (List.length (requests (trace c)) <= 1)%nat
  /\ alerts (trace c) = []
  /\ navigations (trace c) = [].

(** The requests of the two forms. *)
Definition login_request (email password : string) : request :=
  Request POST "/auth/login"
    (VObj [("email", VStr email); ("password", VStr password)]).

Definition register_request (name email password : string) : request :=
  Request POST "/auth/register"
    (VObj [("name", VStr name); ("email", VStr email);
           ("password", VStr password)]).

(** How a form's submit ended: it went home with the user of the
    payload stored, or it showed the one alert with the store as it
    was.  Either way the handler ended without an error, after the one
    request. *)
Definition submitted (rq : request) (msg : string) (s : Auth.store)
  (o : outcome) (c : config Auth.store unit) : Prop :=
  now c = Finished (inr tt)
  /\ requests (trace c) = [rq]
  /\ match o with
     | Resolved r =>
         if loose_eq_null (data r)
         then alerts (trace c) = [msg] /\ navigations (trace c) = []
              /\ st c = s
         else alerts (trace c) = [] /\ navigations (trace c) = ["/"]
              /\ st c = Auth.Store (get_total (data r) "user") (Auth.loading s)
     | Rejected _ =>
         alerts (trace c) = [msg] /\ navigations (trace c) = [] /\ st c = s
     end.

(* ================================================================== *)
(** ** [encodeURIComponent] *)

Module URI.

Definition between (lo hi n : nat) : bool := ((lo <=? n) && (n <=? hi))%nat.

(** The characters [encodeURIComponent] leaves as they are: letters,
    digits and [- _ . ! ~ * ' ( )]. *)
Definition unreserved (c : ascii) : bool :=
  let n := nat_of_ascii c in
  between 65 90 n || between 97 122 n || between 48 57 n
  || existsb (Nat.eqb n) [45; 95; 46; 33; 126; 42; 39; 40; 41].

Definition hex_digit (d : nat) : ascii :=
  ascii_of_nat (if (d <? 10)%nat then 48 + d else 55 + d).

Definition percent : ascii := ascii_of_nat 37.

Definition encode_byte (c : ascii) : string :=
  if unreserved c then String c EmptyString
  else String percent
         (String (hex_digit (nat_of_ascii c / 16))
            (String (hex_digit (nat_of_ascii c mod 16)) EmptyString)).

(** Modelled from the platform (ECMA-262): the string is taken to UTF-8,
    which is how strings are kept here, and every byte that is not an
    unreserved character becomes [%] and two upper-case hexadecimal
    digits. *)
Fixpoint encodeURIComponent (s : string) : string :=
  match s with
  | EmptyString => EmptyString
  | String c rest => encode_byte c ++ encodeURIComponent rest
  end.

(** What a path with plain segments is made of. *)
Definition tame (c : ascii) : bool := unreserved c || Ascii.eqb c "/".

(** What an encoded text is made of. *)
Definition safe_byte (c : ascii) : bool := unreserved c || Ascii.eqb c percent.

(** A text that is not empty, holds unreserved characters only and is
    not a dot segment: as a segment of a path, a URL shows it as it
    is. *)
Definition plain (s : string) : bool :=
  negb (s =? "")%string && negb (s =? ".")%string && negb (s =? "..")%string
  && forallb unreserved (list_ascii_of_string s).

Definition hex_value (c : ascii) : option nat :=
  let n := nat_of_ascii c in
  if between 48 57 n then Some (n - 48)
  else if between 65 70 n then Some (n - 55)
  else if between 97 102 n then Some (n - 87)
  else None.

(** Reading percent escapes back, byte by byte; [None] for an escape
    that is cut short or is not hexadecimal. *)
Fixpoint percent_decode (s : string) : option string :=
  match s with
  | EmptyString => Some EmptyString
  | String c rest =>
      if Ascii.eqb c percent then
        match rest with
        | String h (String l rest') =>
            match hex_value h, hex_value l with
            | Some a, Some b =>
                option_map (String (ascii_of_nat (16 * a + b)))
                           (percent_decode rest')
            | _, _ => None
            end
        | _ => None
        end
      else option_map (String c) (percent_decode rest)
  end.

End URI.

(* ================================================================== *)
(** ** SearchBar (App.jsx lines 78-87) *)

Module SearchBar.

(** [useState('')] *)
Definition init : string := "".

Definition target (q : string) : string :=
  "/search?q=" ++ URI.encodeURIComponent q.

(** The submit handler, for the text [q] of the field:
    [e.preventDefault(); if(!q) return; navigate(...)]. *)
Definition submit (q : string) : prog string unit :=
  if not_ (VStr q) then Ret tt
  else Navigate (target q) (Ret tt).

End SearchBar.

(* ================================================================== *)
(** ** The route table (App.jsx lines 307-315) *)

Module Router.

Inductive page : Type :=
| Home | CategoryPage | ProductDetails | CartPage | LoginPage | RegisterPage
| AdminPanel.

(** [<Route path=... element=... />], in the order of the source. *)
Definition routes : list (string * page) :=
  [("/", Home);
   ("/category/:id", CategoryPage);
   ("/product/:id", ProductDetails);
   ("/cart", CartPage);
   ("/login", LoginPage);
   ("/register", RegisterPage);
   ("/admin/*", AdminPanel)].

(** [s.split('/')] *)
Fixpoint split_slash (s : string) : list string :=
  match s with
  | EmptyString => [EmptyString]
  | String c rest =>
      if Ascii.eqb c "/" then EmptyString :: split_slash rest
      else match split_slash rest with
           | h :: t => String c h :: t
           | [] => [String c EmptyString]
           end
  end.

(** The path of a link or navigation target: what stands before the
    first [?] or [#]. *)
Fixpoint pathname_of (to : string) : string :=
  match to with
  | EmptyString => EmptyString
  | String c rest =>
      if Ascii.eqb c "?" || Ascii.eqb c "#" then EmptyString
      else String c (pathname_of rest)
  end.

Definition lower_ascii (c : ascii) : ascii :=
  let n := nat_of_ascii c in
  if URI.between 65 90 n then ascii_of_nat (n + 32) else c.

Fixpoint lower (s : string) : string :=
  match s with
  | EmptyString => EmptyString
  | String c rest => String (lower_ascii c) (lower rest)
  end.

(** Static segments compare without regard to the case of ASCII
    letters. *)
Definition same_segment (a b : string) : bool := (lower a =? lower b)%string.

Inductive segment : Type :=
| Lit (s : string)
| Par (name : string).

Record pattern : Type := Pattern { segments : list segment; splat : bool }.

Definition is_empty (s : string) : bool := (s =? "")%string.

Definition segment_of (s : string) : segment :=
  match s with
  | String c name => if Ascii.eqb c ":" then Par name else Lit s
  | EmptyString => Lit s
  end.

(** A route path read as the router reads it: a final [*] is a splat,
    a segment that starts with [:] is a parameter, slashes at either end
    do not count. *)
Definition compile (path : string) : pattern :=
  let parts := filter (fun s => negb (is_empty s)) (split_slash path) in
  match rev parts with
  | last :: before =>
      if (last =? "*")%string
      then Pattern (map segment_of (rev before)) true
      else Pattern (map segment_of parts) false
  | [] => Pattern [] false
  end.

(** [parts.join('/')] *)
Fixpoint join_slash (parts : list string) : string :=
  match parts with
  | [] => EmptyString
  | [p] => p
  | p :: rest => p ++ "/" ++ join_slash rest
  end.

(** The parts of a path against the segments of a pattern.  A parameter
    takes one part that is not empty; after the last segment only
    slashes may follow, unless the pattern ends in a splat, which takes
    whatever is left as the parameter [*]. *)
Fixpoint match_parts (segs : list segment) (splat : bool) (parts : list string)
  : option (list (string * string)) :=
  match segs with
  | [] => if splat then Some [("*", join_slash parts)]
          else if forallb is_empty parts then Some [] else None
  | Lit s :: segs' =>
      match parts with
      | p :: rest => if same_segment s p then match_parts segs' splat rest
                     else None
      | [] => None
      end
  | Par name :: segs' =>
      match parts with
      | p :: rest =>
          if is_empty p then None
          else option_map (cons (name, p)) (match_parts segs' splat rest)
      | [] => None
      end
  end.

(** Modelled from the router (react-router 6, [matchPath] without
    [caseSensitive]), for paths without percent escapes and line
    breaks: the parameters when the path matches the pattern. *)
Definition match_path (path pathname : string)
  : option (list (string * string)) :=
  match pathname with
  | String c rest =>
      if Ascii.eqb c "/"
      then match_parts (segments (compile path)) (splat (compile path))
                       (split_slash rest)
      else None
  | EmptyString => None
  end.

(** Every route of the table that matches, with its parameters. *)
Definition matches (pathname : string)
  : list (page * list (string * string)) :=
  flat_map (fun r => match match_path (fst r) pathname with
                     | Some params => [(snd r, params)]
                     | None => []
                     end) routes.

(** What [<Routes>] renders at a location: the element of the matching
    route, or nothing. *)
Definition route_of (to : string) : option (page * list (string * string)) :=
  hd_error (matches (pathname_of to)).

(** [useParams().id] *)
Definition param (name : string) (params : list (string * string))
  : option string :=
  option_map snd (find (fun kv => (fst kv =? name)%string) params).

End Router.

(* ================================================================== *)
(** ** What the components render *)

Module Render.

(** The link targets of a tree, in document order. *)
Fixpoint links (n : node) : list string :=
  match n with
  | Link to _ kids =>
      to :: (fix go (l : list node) : list string :=
               match l with
               | [] => []
               | k :: r => (links k ++ go r)%list
               end) kids
  | Elem _ _ kids | Button _ _ kids =>
      (fix go (l : list node) : list string :=
         match l with
         | [] => []
         | k :: r => (links k ++ go r)%list
         end) kids
  | _ => []
  end.

(** [l.map(f)] for a callback that may throw: the first throw ends it. *)
Fixpoint map_all {A B : Type} (f : A -> exn + B) (l : list A) : exn + list B :=
  match l with
  | [] => inr []
  | x :: rest =>
      match f x with
      | inl e => inl e
      | inr y => match map_all f rest with
                 | inl e => inl e
                 | inr ys => inr (y :: ys)
                 end
      end
  end.

(** [v.map(f)] on a value of the API: only an array has [map]; reading
    it from null or undefined, or calling what is not a function, is a
    TypeError. *)
Definition map_array {B : Type} (f : value -> exn + B) (v : value)
  : exn + list B :=
  match v with
  | VArr items => map_all f items
  | _ => inl TypeError
  end.

(** [v.length === 0] *)
Definition length_is_zero (v : value) : exn + bool :=
  match v with
  | VNull | VUndefined => inl TypeError
  | VArr items => inr (match items with [] => true | _ => false end)
  | VStr s => inr (s =? "")%string
  | VObj fields => inr (match lookup "length" fields with
                        | Some (VNum 0) => true
                        | _ => false
                        end)
  | _ => inr false
  end.

Section Platform.

(** What the platform makes of values no component of the program
    decides: the price formatter on what is not a safe integer, the text
    of a number that is not a safe integer, the text of an object or
    array in a template literal and the comparison with zero of a
    string, an object or an array (both of which may throw). *)
Variable format_coerced : value -> string.
Variable large_number_text : Z -> string.
Variable object_text : value -> exn + string.
Variable coerced_positive : value -> exn + bool.

(** The text of a number: for a safe integer its decimal digits, after
    a minus sign when negative (beyond 2^53 the platform writes the
    shortest digits of the double, and from 10^21 on an exponent). *)
Definition number_text (z : Z) : string :=
  if Intl.safe z then
    (if (z <? 0)%Z then "-" else "")
    ++ DecimalString.NilEmpty.string_of_uint (N.to_uint (Z.abs_N z))
  else large_number_text z.

(** [`${v}`] *)
Definition to_text (v : value) : exn + string :=
  match v with
  | VStr s => inr s
  | VNull => inr "null"
  | VUndefined => inr "undefined"
  | VBool true => inr "true"
  | VBool false => inr "false"
  | VNum z => inr (number_text z)
  | VArr _ | VObj _ => object_text v
  end.

(** [v > 0] *)
Definition gt_zero (v : value) : exn + bool :=
  match v with
  | VNum z => inr (0 <? z)%Z
  | VBool b => inr b
  | VNull | VUndefined => inr false
  | VStr _ | VArr _ | VObj _ => coerced_positive v
  end.

(** [v.length > 0] for a truthy [v]. *)
Definition length_positive (v : value) : exn + bool :=
  match v with
  | VArr items => inr (match items with [] => false | _ => true end)
  | VStr s => inr (negb (s =? "")%string)
  | VObj _ => gt_zero (get_total v "length")
  | _ => inr false
  end.

Definition placeholder : value := VStr "/placeholder.png".

(** Lines 130-140. *)
Definition Hero : node :=
  Elem "div"
    "bg-gradient-to-r from-white to-gray-50 rounded-lg p-6 flex items-center justify-between"
    [Elem "div" ""
       [Elem "h1" "text-2xl font-bold" [Text "وین طلا — خرید امن طلا آنلاین"];
        Elem "p" "mt-1 text-sm" [Text "قیمت روز، ارسال سریع، گارانتی اصالت"]];
     Img (VStr "/hero-gold.png") (VStr "hero") "w-40 h-24 object-contain"].

(** Lines 142-157; [product.id] is the first thing read. *)
Definition ProductCard (product : value) : exn + node :=
  match get product "id" with
  | inl e => inl e
  | inr id =>
      match to_text id with
      | inl e => inl e
      | inr t =>
          inr (Link ("/product/" ++ t)
                 "block border rounded overflow-hidden hover:shadow-lg"
                 [Elem "div" "p-3 bg-white h-40 flex items-center justify-center"
                    [Img (or_ (get_total product "image") placeholder)
                         (get_total product "title") "max-h-full"];
                  Elem "div" "p-3 bg-white"
                    [Elem "h3" "text-sm font-medium truncate"
                       [Expr (get_total product "title")];
                     Elem "div" "mt-2 flex items-center justify-between"
                       [Elem "div" "text-sm"
                          [Expr (get_total product "weight"); Text "g"];
                        Elem "div" "text-base font-bold"
                          [Text (formatPrice format_coerced
                                   (get_total product "price"))]]]])
      end
  end.

Definition grid : string :=
  "grid grid-cols-2 sm:grid-cols-3 md:grid-cols-4 gap-4".

(** Lines 117-127. *)
Definition Home (s : Home.state) : exn + node :=
  match map_array ProductCard (Home.products s) with
  | inl e => inl e
  | inr cards =>
      inr (Elem "div" "max-w-7xl mx-auto p-4"
             [Hero;
              Elem "section" "mt-6"
                [Elem "h2" "text-xl font-semibold mb-3"
                   [Text "پیشنهادها برای شما"];
                 Elem "div" grid cards]])
  end.

(** Lines 165-172. *)
Definition CategoryPage (products : value) : exn + node :=
  match map_array ProductCard products with
  | inl e => inl e
  | inr cards =>
      inr (Elem "div" "max-w-7xl mx-auto p-4"
             [Elem "h2" "text-lg font-semibold mb-4" [Text "نتایج دسته‌بندی"];
              Elem "div" grid cards])
  end.

(** Lines 214-225: one line of the cart; [it.id] is read first, then
    [it.product.image]. *)
Definition CartRow (it : value) : exn + node :=
  match get it "id" with
  | inl e => inl e
  | inr _ =>
      match get (get_total it "product") "image" with
      | inl e => inl e
      | inr image =>
          inr (Elem "div" "flex items-center justify-between border rounded p-3"
                 [Elem "div" "flex items-center gap-4"
                    [Img (or_ image placeholder) (VStr "")
                         "w-16 h-16 object-contain";
                     Elem "div" ""
                       [Elem "div" "font-medium"
                          [Expr (get_total (get_total it "product") "title")];
                        Elem "div" "text-sm"
                          [Text "تعداد: "; Expr (get_total it "qty")]]];
                  Elem "div" "font-bold"
                    [Text (formatPrice format_coerced (get_total it "total"))]])
      end
  end.

Definition empty_cart : node := Elem "div" "" [Text "سبد خالی است"].

Definition cart_frame (body : node) : node :=
  Elem "div" "max-w-4xl mx-auto p-4"
    [Elem "h2" "text-xl font-semibold mb-4" [Text "سبد خرید"]; body].

(** Lines 209-229. *)
Definition CartPage (items : value) : exn + node :=
  match length_is_zero items with
  | inl e => inl e
  | inr true => inr (cart_frame empty_cart)
  | inr false =>
      match map_array CartRow items with
      | inl e => inl e
      | inr rows => inr (cart_frame (Elem "div" "space-y-4" rows))
      end
  end.

Definition badge (count : value) : node := Elem "span" "text-sm" [Expr count].

(** Line 94: [count>0 && <span ...>] is the span, or [false]. *)
Definition CartIcon (count : value) : exn + node :=
  match gt_zero count with
  | inl e => inl e
  | inr shown =>
      inr (Link "/cart" "mr-4"
             [Text "🛒 "; if shown then badge count else Expr (VBool false)])
  end.

(** Lines 82-86; the field's [value] and [placeholder] are left out. *)
Definition SearchBar (q : string) : node :=
  Elem "form" "mr-4" [Elem "input" "border rounded px-2 py-1" []].

(** Line 58. *)
Definition SubLink (sub : value) : exn + node :=
  match get sub "id" with
  | inl e => inl e
  | inr id =>
      match to_text id with
      | inl e => inl e
      | inr t =>
          inr (Link ("/category/" ++ t) "block px-4 py-2 whitespace-nowrap"
                 [Expr (get_total sub "name")])
      end
  end.

(** Lines 55-61:
    [cat.children && cat.children.length>0 && (<div>...</div>)]. *)
Definition Submenu (children : value) : exn + node :=
  if truthy children then
    match length_positive children with
    | inl e => inl e
    | inr false => inr (Expr (VBool false))
    | inr true =>
        match map_array SubLink children with
        | inl e => inl e
        | inr subs =>
            inr (Elem "div"
                   "absolute left-0 top-full mt-2 bg-white border rounded shadow-md opacity-0 group-hover:opacity-100 transition-opacity"
                   subs)
        end
    end
  else inr (Expr children).

(** Lines 52-63: one entry of the menu. *)
Definition MenuEntry (cat : value) : exn + node :=
  match get cat "id" with
  | inl e => inl e
  | inr id =>
      match to_text id with
      | inl e => inl e
      | inr t =>
          match Submenu (get_total cat "children") with
          | inl e => inl e
          | inr sub =>
              inr (Elem "div" "group relative ml-6"
                     [Link ("/category/" ++ t) "py-2 px-3 inline-block"
                        [Expr (get_total cat "name")];
                      sub])
          end
      end
  end.

(** Lines 44-76, with the state of the three components it holds. *)
Definition MultiLevelMenu (categories : value) (q : string) (count user : value)
  : exn + node :=
  match map_array MenuEntry categories with
  | inl e => inl e
  | inr entries =>
      match CartIcon count with
      | inl e => inl e
      | inr icon =>
          inr (Elem "nav" "bg-white shadow"
                 [Elem "div" "max-w-7xl mx-auto px-4"
                    [Elem "div" "flex items-center justify-between h-16"
                       [Elem "div" "flex items-center"
                          [Link "/" "text-xl font-bold" [Text "وین طلا"];
                           Elem "div" "hidden md:flex md:ml-8" entries];
                        Elem "div" "flex items-center"
                          [SearchBar q; icon; ProfileMenu.render user]]]])
      end
  end.

End Platform.

End Render.

(* ================================================================== *)
(** ** The logout button (App.jsx line 104) *)

Module LogoutButton.

(** [onClick={()=>{ logout(); navigate('/') }}]: [logout] is called and
    not awaited, so it runs up to its request, and the navigation
    follows at once. *)
Definition click (s : Auth.store) : config Auth.store unit :=
  let c := start Auth.logout s in
  Config (st c) (trace c ++ [Navigated "/"]) (now c).

End LogoutButton.

(** A task that waits for its response while other tasks of the same
    component run: when it resumes it finds the state as they left
    it. *)
Definition resume_in {S A : Type} (s : S) (c : config S A) : config S A :=
  Config s (trace c) (now c).

(* ================================================================== *)
(** ** The records the views read *)

Module Shape.

Definition is_array (v : value) : bool :=
  match v with
  | VArr _ => true
  | _ => false
  end.

(** An identifier as the API may give it: a text or a number. *)
Inductive ident : Type :=
| IdText (s : string)
| IdNumber (n : N).

Definition ident_value (i : ident) : value :=
  match i with
  | IdText s => VStr s
  | IdNumber n => VNum (Z.of_N n)
  end.

(** An identifier a path shows as it is: a plain text, or a number the
    platform writes with all its digits. *)
Definition routable (i : ident) : bool :=
  match i with
  | IdText s => URI.plain s
  | IdNumber n => (n <=? 2 ^ 53)%N
  end.

Definition optional (f : string -> value) (o : option string) : value :=
  match o with
  | Some s => f s
  | None => VNull
  end.

(** The fields of a product that the cards and the detail page read. *)
Record product : Type :=
  Product { product_id : ident; title : string; image : option string;
            weight : Z; price : option Z }.

Definition product_value (p : product) : value :=
  VObj [("id", ident_value (product_id p));
        ("title", VStr (title p));
        ("image", optional VStr (image p));
        ("weight", VNum (weight p));
        ("price", match price p with Some z => VNum z | None => VNull end)].

(** The fields of a category that the menu reads; [children] may be
    missing. *)
Record subcategory : Type := Sub { sub_id : ident; sub_name : string }.

Record category : Type :=
  Cat { cat_id : ident; cat_name : string;
        cat_children : option (list subcategory) }.

Definition sub_value (c : subcategory) : value :=
  VObj [("id", ident_value (sub_id c)); ("name", VStr (sub_name c))].

Definition cat_value (c : category) : value :=
  VObj (("id", ident_value (cat_id c)) :: ("name", VStr (cat_name c))
        :: match cat_children c with
           | Some subs => [("children", VArr (map sub_value subs))]
           | None => []
           end).

Definition subs_of (c : category) : list subcategory :=
  match cat_children c with
  | Some subs => subs
  | None => []
  end.

(** The identifiers of a menu in document order: each category, then
    its children. *)
Definition menu_idents (cs : list category) : list ident :=
  flat_map (fun c => cat_id c :: map sub_id (subs_of c)) cs.

(** A line of the cart that cannot be shown: it is null or undefined,
    or its [product] is. *)
Definition broken_line (it : value) : bool :=
  loose_eq_null it || loose_eq_null (get_total it "product").

(** A product and the built-in menu of the application as records, to
    try the views on. *)
Definition gold_ring : product :=
  Product (IdNumber 42) "ring" None 3 (Some 1234567%Z).

Definition builtin_menu : list category :=
  [Cat (IdText "1") "زیورآلات"
       (Some [Sub (IdText "11") "گردنبند"; Sub (IdText "12") "انگشتر"]);
   Cat (IdText "2") "سکه" None].

End Shape.

(* ================================================================== *)
(** ** Programs that swallow their errors *)

Section Swallow.
Context {S : Type}.

Create HintDb async.
#[local] Hint Constructors never_throws : async.

Lemma bind_never_throws {A B} (m : prog S A) (f : A -> prog S B) :
  never_throws m -> (forall a, never_throws (f a)) -> never_throws (bind m f).
Proof.
  intros Hm Hf. induction Hm; cbn [bind]; auto with async.
Qed.

(** [p.catch(h)] with a handler that does not throw ends fulfilled,
    whatever [p] does. *)
Lemma catch_never_throws {A B} (p : prog S A) (h : exn -> prog S B) :
  (forall e, never_throws (h e)) -> never_throws (catch_ p h).
Proof.
  intros Hh. unfold catch_.
  induction p as [a | e | f k IH | msg k IH | path k IH | rq k IH];
    cbn [bind try_catch]; auto with async.
  apply bind_never_throws; auto with async.
Qed.

Lemma finally_never_throws {A} (p : prog S A) (h : prog S unit) :
  never_throws p -> never_throws h -> never_throws (finally_ p h).
Proof.
  intros Hp Hh. induction Hp; cbn [finally_]; auto with async.
  apply bind_never_throws; auto with async.
Qed.

Lemma advance_sound {A} (m : prog S A) :
  never_throws m -> forall s t, sound (advance m s t).
Proof.
  induction 1; intros s t; cbn [advance]; unfold sound; cbn [now]; auto.
  - apply IHnever_throws.
  - apply IHnever_throws.
  - apply IHnever_throws.
Qed.

Lemma settle_sound {A} (o : outcome) (c : config S A) :
  sound c -> sound (settle o c).
Proof.
  unfold sound at 1, settle. intros H.
  destruct (now c) as [[e | a] | rq k] eqn:E.
  - contradiction.
  - unfold sound. now rewrite E.
  - apply advance_sound, H.
Qed.

(** However many of its requests have settled, and however, a program
    that never throws has not ended in an error. *)
Lemma run_sound {A} (os : list outcome) (m : prog S A) (s : S) :
  never_throws m -> sound (run os m s).
Proof.
  intros Hm. unfold run.
  assert (H0 : sound (start m s)) by now apply advance_sound.
  revert H0. generalize (start m s).
  induction os as [| o os IH]; intros c Hc; cbn [fold_left]; [exact Hc |].
  apply IH, settle_sound, Hc.
Qed.

End Swallow.

(* ================================================================== *)
(** ** The session store *)

Section SessionStore.
Import Auth.

Lemma logout_resolved s r :
  run [Resolved r] logout s
  = Config (Store VNull (loading s))
           [Requested (Request POST "/auth/logout" VUndefined);
            Stored (Store VNull (loading s))]
           (Finished (inr tt)).
Proof. reflexivity. Qed.

Lemma logout_rejected s e :
  run [Rejected e] logout s
  = Config s [Requested (Request POST "/auth/logout" VUndefined)]
           (Finished (inl e)).
Proof. reflexivity. Qed.

(** C1, as stated, fails: with a user logged in and the request to
    /auth/logout rejected, the stored user is still there after
    [logout]. *)
Lemma logout_rejected_user_stays :
  loose_eq_null
    (user (st (run [Rejected (AxiosError (VStr "Network Error"))] logout
                   (Store (VObj [("name", VStr "Sara")]) false))))
  = false.
Proof. reflexivity. Qed.

(** C1, amended: when the request to /auth/logout succeeds, [logout]
    completes and the stored user is then absent; when it fails, the
    failure is passed on to the caller and the store is left as it was. *)
Theorem logout_clears_on_success (s : store) (o : outcome) :
  let c := run [o] logout s in
  match o with
  | Resolved _ =>
      now c = Finished (inr tt) /\ user (st c) = VNull
      /\ loading (st c) = loading s
  | Rejected e =>
      now c = Finished (inl e) /\ st c = s /\ stores (trace c) = []
  end.
Proof.
  destruct o as [r | e]; cbn zeta.
  - rewrite logout_resolved; cbn; auto.
  - rewrite logout_rejected; cbn; auto.
Qed.

Lemma initialize_pending s :
  let c := start initialize s in
  outstanding c = true /\ st c = s
  /\ trace c = [Requested (Request GET "/auth/me" VUndefined)].
Proof. cbn; auto. Qed.

Lemma initialize_resolved s r :
  run [Resolved r] initialize s
  = Config (Store (data r) false)
           [Requested (Request GET "/auth/me" VUndefined);
            Stored (Store (data r) (loading s));
            Stored (Store (data r) false)]
           (Finished (inr (inl tt))).
Proof. reflexivity. Qed.

Lemma initialize_rejected s e :
  run [Rejected e] initialize s
  = Config (Store (user s) false)
           [Requested (Request GET "/auth/me" VUndefined);
            Stored (Store (user s) false)]
           (Finished (inr (inr tt))).
Proof. reflexivity. Qed.

(** C2: the startup probe, from the store as it is mounted.  While the
    request is outstanding the store is loading; however the request
    settles, the probe finishes without an error, loading is false, the
    user is the returned one on success and absent on failure, and the
    loading flag went from true to false once and never back. *)
Theorem initialize_settles (o : outcome) :
  let c0 := start initialize init in
  let c := run [o] initialize init in
  (outstanding c0 = true /\ loading (st c0) = true)
  /\ outstanding c = false
  /\ (exists v, now c = Finished (inr v))
  /\ loading (st c) = false
  /\ user (st c) = match o with
                   | Resolved r => data r
                   | Rejected _ => VNull
                   end
  /\ Spec.transitions true false (Spec.loading_history init c) = 1
  /\ Spec.transitions false true (Spec.loading_history init c) = 0.
Proof.
  destruct o as [r | e]; cbn zeta.
  - rewrite initialize_resolved; cbn.
    repeat split; eauto.
  - rewrite initialize_rejected; cbn.
    repeat split; eauto.
Qed.

Lemma login_resolved s c r u :
  loose_eq_null c = false ->
  get (data r) "user" = inr u ->
  run [Resolved r] (login c) s
  = Config (Store u (loading s))
           [Requested (Request POST "/auth/login"
                         (VObj [("email", get_total c "email");
                                ("password", get_total c "password")]));
            Stored (Store u (loading s))]
           (Finished (inr (data r))).
Proof.
  intros Hc Hu.
  unfold run, start, login, get_total; cbn [fold_left].
  destruct c; try discriminate Hc; cbn;
    try (destruct (lookup "email" fields));
    try (destruct (lookup "password" fields));
    cbn; rewrite Hu; reflexivity.
Qed.

Lemma login_rejected s c e :
  loose_eq_null c = false ->
  run [Rejected e] (login c) s
  = Config s
           [Requested (Request POST "/auth/login"
                         (VObj [("email", get_total c "email");
                                ("password", get_total c "password")]))]
           (Finished (inl e)).
Proof.
  intros Hc.
  unfold run, start, login, get_total; cbn [fold_left].
  destruct c; try discriminate Hc; cbn;
    try (destruct (lookup "email" fields));
    try (destruct (lookup "password" fields));
    reflexivity.
Qed.

Lemma register_resolved s p r u :
  get (data r) "user" = inr u ->
  run [Resolved r] (register p) s
  = Config (Store u (loading s))
           [Requested (Request POST "/auth/register" p);
            Stored (Store u (loading s))]
           (Finished (inr (data r))).
Proof.
  intros Hu. unfold run, start, register; cbn. rewrite Hu. reflexivity.
Qed.

Lemma register_rejected s p e :
  run [Rejected e] (register p) s
  = Config s [Requested (Request POST "/auth/register" p)] (Finished (inl e)).
Proof. reflexivity. Qed.

Lemma get_present v k :
  loose_eq_null v = false -> get v k = inr (get_total v k).
Proof.
  unfold get_total.
  destruct v; cbn; intros H; try discriminate H; try reflexivity.
  destruct (lookup k fields); reflexivity.
Qed.

(** C3: [login], and [register] by the same contract.  When the request
    succeeds with a payload, the stored user becomes the payload's [user],
    the loading flag is untouched and the whole payload is the result;
    when the request fails, the failure is the result and the store is as
    it was, no setter having run. *)
Theorem login_register_contract
  (s : store) (credentials payload : value) (o : outcome)
  (Hc : loose_eq_null credentials = false)
  (Ho : Spec.carries_payload o) :
  let cl := run [o] (login credentials) s in
  let cr := run [o] (register payload) s in
  match o with
  | Resolved r =>
      (now cl = Finished (inr (data r))
       /\ st cl = Store (get_total (data r) "user") (loading s))
      /\ (now cr = Finished (inr (data r))
          /\ st cr = Store (get_total (data r) "user") (loading s))
  | Rejected e =>
      (now cl = Finished (inl e) /\ st cl = s /\ stores (trace cl) = [])
      /\ (now cr = Finished (inl e) /\ st cr = s /\ stores (trace cr) = [])
  end.
Proof.
  destruct o as [r | e]; cbn zeta.
  - cbn in Ho.
    rewrite (login_resolved s credentials r _ Hc (get_present _ _ Ho)).
    rewrite (register_resolved s payload r _ (get_present _ _ Ho)).
    cbn; auto.
  - rewrite (login_rejected s credentials e Hc), register_rejected.
    cbn; auto.
Qed.

Lemma login_register_contract_witness :
  (now (run [Resolved (Response Sample.payload)] (login Sample.credentials) init)
   = Finished (inr Sample.payload)
   /\ st (run [Resolved (Response Sample.payload)] (login Sample.credentials) init)
      = Store Sample.sara true)
  /\ (now (run [Resolved (Response Sample.payload)] (register Sample.credentials) init)
      = Finished (inr Sample.payload)
      /\ st (run [Resolved (Response Sample.payload)] (register Sample.credentials)
                 init)
         = Store Sample.sara true).
Proof.
  apply (login_register_contract init Sample.credentials Sample.credentials
           (Resolved (Response Sample.payload))); reflexivity.
Defined.

(** The startup probe cannot end in an error. *)
Lemma initialize_never_throws : never_throws initialize.
Proof.
  apply finally_never_throws.
  - apply catch_never_throws. intros _. constructor.
  - repeat constructor.
Qed.

Lemma login_link_iff (u : value) :
  ProfileMenu.render u = ProfileMenu.login_link <-> not_ u = true.
Proof.
  unfold ProfileMenu.render.
  destruct (not_ u); split; intros H; try reflexivity; discriminate H.
Qed.

Lemma user_shaped_consistent (u : value) :
  Spec.user_shaped u = true -> (loose_eq_null u = true <-> not_ u = true).
Proof.
  unfold Spec.user_shaped, not_.
  destruct u as [| | [] | z | t | |]; cbn;
    try destruct (z =? 0)%Z; try destruct (t =? "")%string; cbn;
    intros H; try discriminate H; split; auto.
Qed.

Lemma consistent_shape (s : store) :
  Spec.consistent s -> Spec.user_shaped (user s) = true.
Proof.
  unfold Spec.consistent, Spec.absent, Spec.logged_out.
  rewrite login_link_iff. unfold Spec.user_shaped, not_.
  destruct (loose_eq_null (user s)), (truthy (user s)); cbn;
    intros [H1 H2]; auto.
Qed.

Lemma consistent_of_shape (s : store) :
  Spec.user_shaped (user s) = true -> Spec.consistent s.
Proof.
  intros H. unfold Spec.consistent, Spec.absent, Spec.logged_out.
  rewrite login_link_iff. now apply user_shaped_consistent.
Qed.

(** What one operation does to the stored user: nothing, or it stores a
    user of the expected shape. *)
Lemma perform_user (x : Spec.op) (s : store) :
  Spec.well_shaped x = true ->
  user (Spec.perform x s) = user s
  \/ Spec.user_shaped (user (Spec.perform x s)) = true.
Proof.
  destruct x as [o | c o | p o | o]; destruct o as [r | e]; cbn [Spec.well_shaped Spec.perform];
    intros H.
  - rewrite initialize_resolved; cbn; auto.
  - rewrite initialize_rejected; cbn; auto.
  - destruct (loose_eq_null c) eqn:Hc.
    + left. destruct c; try discriminate Hc; reflexivity.
    + destruct (get (data r) "user") as [err | u] eqn:Hu.
      * left. unfold run, start, login; cbn [fold_left].
        rewrite (get_present c "email" Hc), (get_present c "password" Hc).
        cbn. rewrite Hu. reflexivity.
      * right. rewrite (login_resolved s c r u Hc Hu). exact H.
  - destruct (loose_eq_null c) eqn:Hc.
    + left. destruct c; try discriminate Hc; reflexivity.
    + left. now rewrite (login_rejected s c e Hc).
  - destruct (get (data r) "user") as [err | u] eqn:Hu.
    + left. unfold run, start, register; cbn. rewrite Hu. reflexivity.
    + right. rewrite (register_resolved s p r u Hu). exact H.
  - left. reflexivity.
  - right. reflexivity.
  - left. reflexivity.
Qed.

Lemma perform_consistent (x : Spec.op) (s : store) :
  Spec.well_shaped x = true ->
  Spec.consistent s -> Spec.consistent (Spec.perform x s).
Proof.
  intros Hx Hs.
  destruct (perform_user x s Hx) as [Hsame | Hshape].
  - unfold Spec.consistent, Spec.absent, Spec.logged_out in *.
    now rewrite Hsame.
  - now apply consistent_of_shape.
Qed.

Lemma init_consistent : Spec.consistent init.
Proof. now apply consistent_of_shape. Qed.

(** Every state the store goes through along operations whose responses
    have the expected shape is consistent. *)
Lemma states_consistent (ops : list Spec.op) :
  forall s, Spec.consistent s ->
  forallb Spec.well_shaped ops = true ->
  Forall Spec.consistent (Spec.states ops s).
Proof.
  induction ops as [| x rest IH]; intros s Hs Hops; cbn [Spec.states].
  - constructor; [exact Hs | constructor].
  - cbn in Hops. apply andb_true_iff in Hops as [Hx Hrest].
    constructor; [exact Hs |].
    apply IH; [now apply perform_consistent | exact Hrest].
Qed.

(** C8, as stated, fails: when [/auth/me] answers with an empty body,
    the probe stores the empty string; the store as mounted was
    consistent, and now its user is not absent while the profile menu
    offers to log in. *)
Lemma empty_probe_breaks_consistency :
  Spec.consistent init
  /\ ~ Spec.consistent
         (Spec.perform (Spec.Initialize (Resolved (Response (VStr "")))) init).
Proof.
  split; [exact init_consistent |].
  intros [_ H]. specialize (H eq_refl). discriminate H.
Qed.

(** C8, amended: the store as mounted is consistent (its user is absent
    exactly when the profile menu offers to log in), and each of
    [initialize], [login], [register] and [logout], however its request
    settles, takes a consistent store to a consistent store as long as
    the user its response carries is not [false], [0] or the empty
    string.  A store is consistent exactly when the user it holds is
    none of these three. *)
Theorem session_consistency (x : Spec.op) (s : store)
  (Hx : Spec.well_shaped x = true) (Hs : Spec.consistent s) :
  Spec.consistent init
  /\ Spec.consistent (Spec.perform x s)
  /\ (forall s', Spec.consistent s' <-> Spec.user_shaped (user s') = true).
Proof.
  split; [exact init_consistent |].
  split; [now apply perform_consistent |].
  intros s'. split; [apply consistent_shape | apply consistent_of_shape].
Qed.

Lemma session_consistency_witness :
  Spec.consistent init
  /\ Spec.consistent
       (Spec.perform
          (Spec.Login Sample.credentials (Resolved (Response Sample.payload)))
          init)
  /\ (forall s', Spec.consistent s' <-> Spec.user_shaped (user s') = true).
Proof.
  apply (session_consistency
           (Spec.Login Sample.credentials (Resolved (Response Sample.payload)))
           init).
  - reflexivity.
  - unfold Spec.consistent, Spec.absent, Spec.logged_out; simpl;
      split; reflexivity.
Defined.

(** The login form: on success it navigates home, on failure it shows
    the one alert and the store is as it was. *)
Lemma LoginPage_submit_rejected s email password e :
  let c := run [Rejected e] (LoginPage.submit email password) s in
  now c = Finished (inr tt) /\ st c = s
  /\ alerts (trace c) = ["ورود ناموفق"].
Proof. cbn. auto. Qed.

Lemma LoginPage_submit_resolved s email password r :
  loose_eq_null (data r) = false ->
  let c := run [Resolved r] (LoginPage.submit email password) s in
  now c = Finished (inr tt)
  /\ user (st c) = get_total (data r) "user"
  /\ alerts (trace c) = []
  /\ trace c
     = [Requested (Request POST "/auth/login"
                     (VObj [("email", VStr email); ("password", VStr password)]));
        Stored (Store (get_total (data r) "user") (loading s));
        Navigated "/"].
Proof.
  intros Hr. unfold run, start, LoginPage.submit, login; cbn.
  rewrite (get_present _ "user" Hr). cbn. auto.
Qed.

End SessionStore.



(* ================================================================== *)
(** ** The views *)

Section Views.

Lemma truthy_present (v : value) : truthy v = true -> loose_eq_null v = false.
Proof. destruct v; cbn; intros H; try discriminate H; reflexivity. Qed.

Lemma addToCart_started (s : ProductDetails.state) (p0 : value) :
  loose_eq_null p0 = false ->
  st (start (ProductDetails.addToCart p0) s)
  = ProductDetails.State (ProductDetails.p s) true
  /\ trace (start (ProductDetails.addToCart p0) s)
     = [Stored (ProductDetails.State (ProductDetails.p s) true);
        Requested (ProductDetails.cart_add (get_total p0 "id"))]
  /\ outstanding (start (ProductDetails.addToCart p0) s) = true.
Proof.
  intros Hp. unfold start, ProductDetails.addToCart; cbn.
  rewrite (get_present p0 "id" Hp). cbn. auto.
Qed.

Lemma addToCart_settled (s : ProductDetails.state) (p0 : value) (o : outcome) :
  loose_eq_null p0 = false ->
  settle o (start (ProductDetails.addToCart p0) s)
  = Config (ProductDetails.State (ProductDetails.p s) false)
           [Stored (ProductDetails.State (ProductDetails.p s) true);
            Requested (ProductDetails.cart_add (get_total p0 "id"));
            Stored (ProductDetails.State (ProductDetails.p s) false)]
           (Finished (inr tt)).
Proof.
  intros Hp. unfold settle, start, ProductDetails.addToCart; cbn.
  rewrite (get_present p0 "id" Hp). destruct o; reflexivity.
Qed.

Lemma render_buttons fc (s : ProductDetails.state) :
  truthy (ProductDetails.p s) = true ->
  ProductDetails.buttons (ProductDetails.render fc s) = [ProductDetails.adding s].
Proof.
  intros H. unfold ProductDetails.render, not_. rewrite H. reflexivity.
Qed.

(** C5: add-to-cart on a product-detail view that shows a product.  The
    handler sets the in-flight flag, sends the one request to /cart/add
    and waits: the flag is true and the button disabled while the
    request is outstanding.  However the request settles, the handler
    then finishes without an error, the flag is false again and the
    button enabled, and nothing else was stored or sent. *)
Theorem addToCart_in_flight
  (fc : value -> string) (s : ProductDetails.state) (o : outcome)
  (Hp : truthy (ProductDetails.p s) = true) :
  let c0 := start (ProductDetails.addToCart (ProductDetails.p s)) s in
  let c1 := settle o c0 in
  (outstanding c0 = true
   /\ ProductDetails.adding (st c0) = true
   /\ ProductDetails.buttons (ProductDetails.render fc (st c0)) = [true]
   /\ requests (trace c0)
      = [ProductDetails.cart_add (get_total (ProductDetails.p s) "id")])
  /\ (now c1 = Finished (inr tt)
      /\ ProductDetails.adding (st c1) = false
      /\ ProductDetails.buttons (ProductDetails.render fc (st c1)) = [false]
      /\ trace c1
         = [Stored (ProductDetails.State (ProductDetails.p s) true);
            Requested
              (ProductDetails.cart_add (get_total (ProductDetails.p s) "id"));
            Stored (ProductDetails.State (ProductDetails.p s) false)]).
Proof.
  cbn zeta.
  pose proof (truthy_present _ Hp) as Hn.
  rewrite (addToCart_settled s _ o Hn).
  destruct (addToCart_started s _ Hn) as (Hst & Htr & Hout).
  rewrite Hst, Htr. cbn [st trace now].
  repeat split; try reflexivity; try assumption.
  - now rewrite render_buttons.
  - now rewrite render_buttons.
Qed.

Lemma addToCart_in_flight_witness :
  let s := ProductDetails.State Sample.ring false in
  let c0 := start (ProductDetails.addToCart (ProductDetails.p s)) s in
  let c1 := settle (Rejected (AxiosError VNull)) c0 in
  (outstanding c0 = true
   /\ ProductDetails.adding (st c0) = true
   /\ ProductDetails.buttons (ProductDetails.render (fun _ => "") (st c0))
      = [true]
   /\ requests (trace c0) = [ProductDetails.cart_add (VNum 42)])
  /\ (now c1 = Finished (inr tt)
      /\ ProductDetails.adding (st c1) = false
      /\ ProductDetails.buttons (ProductDetails.render (fun _ => "") (st c1))
         = [false]
      /\ trace c1
         = [Stored (ProductDetails.State (ProductDetails.p s) true);
            Requested (ProductDetails.cart_add (VNum 42));
            Stored (ProductDetails.State (ProductDetails.p s) false)]).
Proof.
  apply (addToCart_in_flight (fun _ => "")
           (ProductDetails.State Sample.ring false)
           (Rejected (AxiosError VNull))).
  reflexivity.
Defined.

(** C6: for a user that is absent, or whose admin flag is false, the
    admin view renders the access-denied message and sends no request. *)
Theorem admin_denied (user : value)
  (Hu : Spec.absent user \/ get_total user "is_admin" = VBool false) :
  AdminPanel.render user = AdminPanel.access_denied
  /\ AdminPanel.requests_of_render user = [].
Proof.
  split; [| reflexivity].
  unfold AdminPanel.render, AdminPanel.denied.
  destruct Hu as [Ha | Hf].
  - unfold Spec.absent in Ha.
    destruct user; try discriminate Ha; reflexivity.
  - rewrite Hf. destruct (not_ user); reflexivity.
Qed.

Lemma admin_denied_witness :
  AdminPanel.render Sample.sara = AdminPanel.access_denied
  /\ AdminPanel.requests_of_render Sample.sara = [].
Proof.
  apply (admin_denied Sample.sara). right. reflexivity.
Defined.

Lemma admin_granted (user : value) :
  truthy user = true -> truthy (get_total user "is_admin") = true ->
  AdminPanel.render user = AdminPanel.panel.
Proof.
  intros Hu Ha. unfold AdminPanel.render, AdminPanel.denied, not_.
  rewrite Hu, Ha. reflexivity.
Qed.

(** No read path can end in an error, however its request settles. *)
Lemma read_paths_never_throw :
  never_throws CartIcon.effect
  /\ never_throws Home.effect_categories
  /\ never_throws Home.effect_products
  /\ (forall id, never_throws (CategoryPage.effect id))
  /\ (forall id, never_throws (ProductDetails.effect id))
  /\ never_throws CartPage.effect
  /\ never_throws App.effect.
Proof.
  repeat split; intros; apply catch_never_throws; intros _; repeat constructor.
Qed.

Ltac silent := intros; unfold Spec.degrades_silently; cbn; repeat split; eauto.

Lemma CartIcon_silent s e :
  Spec.degrades_silently CartIcon.effect "/cart/count" s e.
Proof. silent. Qed.

Lemma Home_categories_silent s e :
  Spec.degrades_silently Home.effect_categories "/categories" s e.
Proof. silent. Qed.

Lemma Home_products_silent s e :
  Spec.degrades_silently Home.effect_products "/products?limit=24" s e.
Proof. silent. Qed.

Lemma CategoryPage_silent id s e :
  Spec.degrades_silently (CategoryPage.effect id) (CategoryPage.endpoint id) s e.
Proof. silent. Qed.

Lemma ProductDetails_silent id s e :
  Spec.degrades_silently (ProductDetails.effect id) ("/products/" ++ id) s e.
Proof. silent. Qed.

Lemma CartPage_silent s e :
  Spec.degrades_silently CartPage.effect "/cart" s e.
Proof. silent. Qed.

Lemma App_navigation_rejected s e :
  run [Rejected e] App.effect s
  = Config App.fallback
           [Requested (Request GET "/categories/navigation" VUndefined);
            Stored App.fallback]
           (Finished (inr (inr tt))).
Proof. reflexivity. Qed.

(** C7, as stated, fails for the category navigation: when its request
    fails on a freshly mounted application, the menu's data is not left
    at its empty default, the built-in menu is stored instead. *)
Lemma navigation_failure_stores_fallback :
  ~ Spec.degrades_silently App.effect "/categories/navigation" App.init
      (AxiosError (VStr "Network Error")).
Proof.
  unfold Spec.degrades_silently. cbn. intros (_ & _ & H & _). discriminate H.
Qed.

(** C7, amended: a failed request of the category-products, product
    list, category list, product detail, cart contents or cart count
    fetch sends nothing more, shows nothing to the user and leaves the
    view's data as it was, which on a freshly mounted view is its empty
    default.  A failed request of the category navigation is as silent,
    but stores the built-in menu of two categories. *)
Theorem read_failures_degrade (e : exn) :
  (forall s, Spec.degrades_silently CartIcon.effect "/cart/count" s e)
  /\ (forall s, Spec.degrades_silently Home.effect_categories "/categories" s e)
  /\ (forall s,
        Spec.degrades_silently Home.effect_products "/products?limit=24" s e)
  /\ (forall id s,
        Spec.degrades_silently (CategoryPage.effect id)
          (CategoryPage.endpoint id) s e)
  /\ (forall id s,
        Spec.degrades_silently (ProductDetails.effect id) ("/products/" ++ id)
          s e)
  /\ (forall s, Spec.degrades_silently CartPage.effect "/cart" s e)
  /\ (forall s,
        let c := run [Rejected e] App.effect s in
        requests (trace c) = [Request GET "/categories/navigation" VUndefined]
        /\ alerts (trace c) = []
        /\ st c = App.fallback
        /\ exists v, now c = Finished (inr v)).
Proof.
  split; [intros; apply CartIcon_silent |].
  split; [intros; apply Home_categories_silent |].
  split; [intros; apply Home_products_silent |].
  split; [intros; apply CategoryPage_silent |].
  split; [intros; apply ProductDetails_silent |].
  split; [intros; apply CartPage_silent |].
  intros s. cbn zeta. rewrite App_navigation_rejected. cbn.
  repeat split; eauto.
Qed.

(** Along successive renders an effect runs once more exactly when the
    last render changed its dependency. *)
Lemma fired_app {D : Type} (same : D -> D -> bool) (l : list D) (d d' : D) :
  forall prev,
  fired same prev (l ++ [d; d'])
  = (fired same prev (l ++ [d]) ++ (if same d d' then [] else [d']))%list.
Proof.
  induction l as [| x l IH]; intros prev; cbn [List.app fired].
  - cbn [due]. destruct (same d d'), (due same prev d); reflexivity.
  - rewrite IH, app_assoc. reflexivity.
Qed.

(** C9: the first render of the category page with an id sends exactly
    one request, to the category-products endpoint of that id; a later
    render sends exactly one more, to the endpoint of the new id, when
    the id has changed from the render before, and none when it has
    not; so going from 11 to 12 is one request for 11 and then one for
    12. *)
Theorem category_page_requests :
  (forall id, CategoryPage.requests_of_renders [id] = [CategoryPage.category_products id])
  /\ (forall ids id id',
        CategoryPage.requests_of_renders (ids ++ [id; id'])
        = (CategoryPage.requests_of_renders (ids ++ [id])
           ++ (if (id =? id')%string then [] else [CategoryPage.category_products id']))%list)
  /\ CategoryPage.requests_of_renders ["11"; "12"]
     = [Request GET "/categories/11/products" VUndefined;
        Request GET "/categories/12/products" VUndefined].
Proof.
  split; [| split].
  - intros id. reflexivity.
  - intros ids id id'. unfold CategoryPage.requests_of_renders.
    rewrite fired_app, flat_map_app.
    destruct (id =? id')%string; reflexivity.
  - reflexivity.
Qed.

End Views.

(* ================================================================== *)
(** ** Price formatting *)

Section PriceFormat.
Import Intl.
Local Open Scope nat_scope.

(** *** The digits of a number *)







(** *** Grouping *)





Lemma length_append (a b : string) :
  String.length (a ++ b) = String.length a + String.length b.
Proof. induction a; cbn; [reflexivity | now rewrite IHa]. Qed.

Lemma labelled_not_dash (x : string) : x ++ " تومان" <> "—".
Proof.
  intros H. apply (f_equal String.length) in H.
  rewrite length_append in H. cbn in H. lia.
Qed.





(** C10: a price of zero is present: it is shown formatted, as the
    Persian zero and the label, not as the dash; the dash is what is
    shown for null and undefined and for nothing else. *)
Theorem formatPrice_zero_is_present (fc : value -> string) :
  formatPrice fc (VNum 0) = "۰ تومان"
  /\ formatPrice fc (VNum 0) <> "—"
  /\ (forall v, formatPrice fc v = "—" <-> loose_eq_null v = true).
Proof.
  split; [reflexivity |].
  split; [discriminate |].
  intros v. unfold formatPrice.
  destruct (loose_eq_null v); split; intros H; try reflexivity.
  - now apply labelled_not_dash in H.
  - discriminate H.
Qed.

End PriceFormat.

(* ================================================================== *)
(** ** Search and the route table *)

Section Search.
Import URI.

Lemma encode_byte_decoded (c : ascii) (rest : string) :
  percent_decode (encode_byte c ++ rest)
  = option_map (String c) (percent_decode rest).
Proof.
  destruct c as [[] [] [] [] [] [] [] []]; reflexivity.
Qed.

Lemma encode_byte_safe (c : ascii) :
  forallb safe_byte (list_ascii_of_string (encode_byte c)) = true.
Proof.
  destruct c as [[] [] [] [] [] [] [] []]; reflexivity.
Qed.

Lemma list_ascii_app (a b : string) :
  list_ascii_of_string (a ++ b)
  = (list_ascii_of_string a ++ list_ascii_of_string b)%list.
Proof. induction a; cbn; [reflexivity | now rewrite IHa]. Qed.

Lemma encoded_safe (q : string) :
  forallb safe_byte (list_ascii_of_string (encodeURIComponent q)) = true.
Proof.
  induction q as [| c q IH]; cbn [encodeURIComponent]; [reflexivity |].
  rewrite list_ascii_app, forallb_app, encode_byte_safe, IH. reflexivity.
Qed.

Lemma safe_byte_plain (c : ascii) :
  safe_byte c = true ->
  ~ In c (list_ascii_of_string "&#?/=+ ").
Proof.
  destruct c as [[] [] [] [] [] [] [] []]; cbn; intros H;
    try discriminate H; intros Hin;
    repeat (destruct Hin as [Hin | Hin]; [discriminate Hin |]);
    exact Hin.
Qed.

(** X1: the target of a search is [/search?q=] followed by what
    [encodeURIComponent] makes of the text of the field: that part
    holds only letters, digits, [- _ . ! ~ * ' ( )] and percent escapes,
    so none of [& # ? / = +] nor a space, and reading the escapes back
    gives the text again. *)
Theorem search_target_is_safe_and_recoverable (q : string) :
  exists e,
    SearchBar.target q = "/search?q=" ++ e
    /\ (forall c, In c (list_ascii_of_string e) ->
                  (unreserved c = true \/ c = percent)
                  /\ ~ In c (list_ascii_of_string "&#?/=+ "))
    /\ percent_decode e = Some q.
Proof.
  exists (encodeURIComponent q). split; [reflexivity |]. split.
  - intros c Hin.
    pose proof (encoded_safe q) as H.
    rewrite forallb_forall in H. specialize (H c Hin).
    split; [| now apply safe_byte_plain].
    unfold safe_byte in H. apply orb_true_iff in H as [H | H]; [now left |].
    right. now apply Ascii.eqb_eq in H.
  - induction q as [| c q IH]; cbn [encodeURIComponent]; [reflexivity |].
    rewrite encode_byte_decoded, IH. reflexivity.
Qed.

Import Router.

Lemma split_slash_cons (s : string) :
  exists p ps, split_slash s = p :: ps.
Proof.
  induction s as [| c s (p & ps & IH)]; cbn [split_slash]; [eauto |].
  destruct (Ascii.eqb c "/"); [eauto |]. rewrite IH. eauto.
Qed.

Lemma is_empty_true (s : string) : is_empty s = true -> s = "".
Proof. unfold is_empty. apply String.eqb_eq. Qed.

Lemma lower_nonempty (s : string) : is_empty s = false -> is_empty (lower s) = false.
Proof. destruct s; cbn; [discriminate | reflexivity]. Qed.

(** The patterns of the table, compiled. *)
Ltac compiled :=
  change (compile "/") with (Pattern [] false) in *;
  change (compile "/category/:id")
    with (Pattern [Lit "category"; Par "id"] false) in *;
  change (compile "/product/:id")
    with (Pattern [Lit "product"; Par "id"] false) in *;
  change (compile "/cart") with (Pattern [Lit "cart"] false) in *;
  change (compile "/login") with (Pattern [Lit "login"] false) in *;
  change (compile "/register") with (Pattern [Lit "register"] false) in *;
  change (compile "/admin/*") with (Pattern [Lit "admin"] true) in *;
  cbn [segments splat] in *.

(** The lower case of the literal segments, computed. *)
Ltac lowered :=
  repeat match goal with
         | |- context [lower (String ?a ?b)] =>
             let v := eval vm_compute in (lower (String a b)) in
             change (lower (String a b)) with v
         end.

(** X2: the routes of the table exclude one another: no path is matched
    by two of them, so the order and ranking of routes never decides
    what is rendered. *)
Theorem routes_exclusive (pathname : string) :
  (List.length (matches pathname) <= 1)%nat.
Proof.
  unfold matches, routes, match_path.
  destruct pathname as [| c rest]; [cbn; lia |].
  destruct (Ascii.eqb c "/"); [| cbn; lia].
  destruct (split_slash_cons rest) as (p & ps & E).
  cbn -[split_slash compile match_parts]. rewrite E. clear E.
  compiled.
  cbn -[same_segment is_empty].
  destruct (is_empty p) eqn:Hp.
  - apply is_empty_true in Hp. subst p. cbn.
    destruct (forallb is_empty ps); cbn; lia.
  - unfold same_segment. lowered.
    remember (lower p) as lp eqn:Elp. clear Elp.
    cbn -[String.eqb is_empty].
    repeat match goal with
           | |- context [String.eqb ?a lp] =>
               destruct (String.eqb_spec a lp) as [<- | ?]
           end;
      cbn -[is_empty];
      repeat match goal with
             | |- context [match ?x with _ => _ end] => destruct x
             end;
      cbn; lia.
Qed.

Lemma unreserved_plain (c : ascii) :
  unreserved c = true ->
  Ascii.eqb c "/" = false /\ Ascii.eqb c "?" = false /\ Ascii.eqb c "#" = false.
Proof.
  destruct c as [[] [] [] [] [] [] [] []]; cbn; intros H;
    try discriminate H; auto.
Qed.

Lemma split_slash_plain (s : string) :
  forallb unreserved (list_ascii_of_string s) = true -> split_slash s = [s].
Proof.
  induction s as [| c s IH]; cbn [list_ascii_of_string forallb split_slash];
    [reflexivity |].
  intros H. apply andb_true_iff in H as [Hc Hs].
  destruct (unreserved_plain c Hc) as (-> & _ & _).
  now rewrite (IH Hs).
Qed.

Lemma pathname_plain (s : string) :
  forallb unreserved (list_ascii_of_string s) = true -> pathname_of s = s.
Proof.
  induction s as [| c s IH]; cbn [list_ascii_of_string forallb pathname_of];
    [reflexivity |].
  intros H. apply andb_true_iff in H as [Hc Hs].
  destruct (unreserved_plain c Hc) as (_ & -> & ->).
  cbn. now rewrite (IH Hs).
Qed.

Lemma plain_parts (s : string) :
  plain s = true ->
  is_empty s = false
  /\ forallb unreserved (list_ascii_of_string s) = true.
Proof.
  unfold plain, is_empty. intros H.
  apply andb_true_iff in H as [H H2]. apply andb_true_iff in H as [H _].
  apply andb_true_iff in H as [H1 _].
  split; [now apply negb_true_iff in H1 | exact H2].
Qed.

Lemma plain_category_matches (id : string) :
  plain id = true ->
  matches (pathname_of ("/category/" ++ id)) = [(CategoryPage, [("id", id)])].
Proof.
  intros Hid. destruct (plain_parts id Hid) as [Hne Hun].
  unfold matches, routes, match_path.
  cbn -[split_slash compile match_parts]. rewrite (pathname_plain id Hun).
  compiled. cbn -[is_empty]. rewrite (split_slash_plain id Hun).
  cbn -[is_empty]. rewrite Hne. reflexivity.
Qed.

Lemma plain_product_matches (id : string) :
  plain id = true ->
  matches (pathname_of ("/product/" ++ id)) = [(ProductDetails, [("id", id)])].
Proof.
  intros Hid. destruct (plain_parts id Hid) as [Hne Hun].
  unfold matches, routes, match_path.
  cbn -[split_slash compile match_parts]. rewrite (pathname_plain id Hun).
  compiled. cbn -[is_empty]. rewrite (split_slash_plain id Hun).
  cbn -[is_empty]. rewrite Hne. reflexivity.
Qed.

(** X3: a link to [/category/<id>] or [/product/<id>], for an id that
    is not empty and needs no escaping, is rendered by the category page
    or the product page and by no other route, with that id as the
    route parameter; the category page so mounted asks for the products
    of that id. *)
Theorem entity_link_reaches_its_page (id : string) (Hid : plain id = true) :
  matches (pathname_of ("/category/" ++ id)) = [(CategoryPage, [("id", id)])]
  /\ matches (pathname_of ("/product/" ++ id))
     = [(ProductDetails, [("id", id)])]
  /\ (exists params,
        route_of ("/category/" ++ id) = Some (CategoryPage, params)
        /\ param "id" params = Some id
        /\ CategoryPage.requests_of_renders [id]
           = [Request GET ("/categories/" ++ id ++ "/products") VUndefined]).
Proof.
  pose proof (plain_category_matches id Hid) as Hc.
  split; [exact Hc |]. split; [now apply plain_product_matches |].
  exists [("id", id)]. unfold route_of. rewrite Hc.
  repeat split; reflexivity.
Qed.

Lemma entity_link_reaches_its_page_witness :
  matches (pathname_of ("/category/" ++ "11")) = [(CategoryPage, [("id", "11")])]
  /\ matches (pathname_of ("/product/" ++ "11"))
     = [(ProductDetails, [("id", "11")])]
  /\ (exists params,
        route_of ("/category/" ++ "11") = Some (CategoryPage, params)
        /\ param "id" params = Some "11"
        /\ CategoryPage.requests_of_renders ["11"]
           = [Request GET ("/categories/" ++ "11" ++ "/products") VUndefined]).
Proof.
  apply (entity_link_reaches_its_page "11"). reflexivity.
Defined.

(** X4: submitting the search field does nothing when it is empty; else
    it navigates once, to [/search?q=] and the encoded text, sends no
    request and leaves the field as it is.  No route matches that path:
    nothing is rendered for it. *)
Theorem search_submit_finds_no_route (q : string) :
  start (SearchBar.submit q) q
  = Config q (if is_empty q then [] else [Navigated (SearchBar.target q)])
           (Finished (inr tt))
  /\ pathname_of (SearchBar.target q) = "/search"
  /\ matches (pathname_of (SearchBar.target q)) = []
  /\ route_of (SearchBar.target q) = None.
Proof.
  split; [| repeat split].
  destruct q; reflexivity.
Qed.

Lemma join_cons (p q : string) (ps : list string) :
  join_slash (p :: q :: ps) = p ++ "/" ++ join_slash (q :: ps).
Proof. reflexivity. Qed.

Lemma join_split (s : string) : join_slash (split_slash s) = s.
Proof.
  induction s as [| c s IH]; cbn [split_slash]; [reflexivity |].
  destruct (split_slash_cons s) as (p & ps & E). rewrite E in *.
  destruct (Ascii.eqb_spec c "/") as [-> | Hc].
  - rewrite join_cons, IH. reflexivity.
  - destruct ps as [| p' ps].
    + cbn [join_slash] in *. now rewrite IH.
    + rewrite join_cons in *. rewrite <- IH. reflexivity.
Qed.

Lemma tame_plain (c : ascii) :
  tame c = true -> Ascii.eqb c "?" = false /\ Ascii.eqb c "#" = false.
Proof.
  destruct c as [[] [] [] [] [] [] [] []]; cbn; intros H;
    try discriminate H; auto.
Qed.

Lemma pathname_tame (s : string) :
  forallb tame (list_ascii_of_string s) = true -> pathname_of s = s.
Proof.
  induction s as [| c s IH]; cbn [list_ascii_of_string forallb pathname_of];
    [reflexivity |].
  intros H. apply andb_true_iff in H as [Hc Hs].
  destruct (tame_plain c Hc) as (-> & ->). cbn. now rewrite (IH Hs).
Qed.

Lemma unreserved_tame (s : string) :
  forallb unreserved (list_ascii_of_string s) = true ->
  forallb tame (list_ascii_of_string s) = true.
Proof.
  intros H. rewrite forallb_forall in *. intros c Hc.
  unfold tame. now rewrite (H c Hc).
Qed.

Lemma join_tame (segs : list string) :
  forallb plain segs = true ->
  forallb tame (list_ascii_of_string (join_slash segs)) = true.
Proof.
  induction segs as [| p segs IH]; [reflexivity |].
  cbn [forallb]. intros H. apply andb_true_iff in H as [Hp Hs].
  destruct (plain_parts p Hp) as [_ Hun].
  destruct segs as [| q segs]; [now apply unreserved_tame |].
  rewrite join_cons, !list_ascii_app, !forallb_app.
  rewrite (unreserved_tame p Hun), (IH Hs). reflexivity.
Qed.

(** X5: every path under [/admin] whose segments are plain (not empty,
    without escapes, and no dot segments) is rendered by the admin panel
    and by no other route, with the rest of the path as the splat
    parameter; so are [/admin] itself and the two links of the panel,
    which therefore lead back to the panel. *)
Theorem admin_paths_reach_the_panel
  (segs : list string) (Hs : forallb plain segs = true) :
  matches (pathname_of ("/admin/" ++ join_slash segs))
  = [(AdminPanel, [("*", join_slash segs)])]
  /\ matches "/admin" = [(AdminPanel, [("*", "")])]
  /\ Forall (fun to => exists params, route_of to = Some (AdminPanel, params))
            (Render.links AdminPanel.panel).
Proof.
  split; [| split].
  - change (pathname_of ("/admin/" ++ join_slash segs))
      with (String "/" ("admin/" ++ pathname_of (join_slash segs))).
    rewrite (pathname_tame _ (join_tame segs Hs)).
    unfold matches, routes, match_path.
    cbn -[split_slash compile match_parts String.append]. compiled.
    change (split_slash ("admin/" ++ join_slash segs))
      with ("admin" :: split_slash (join_slash segs)).
    cbn -[split_slash join_slash]. rewrite join_split. reflexivity.
  - reflexivity.
  - repeat constructor; eexists; reflexivity.
Qed.

Lemma admin_paths_reach_the_panel_witness :
  matches (pathname_of ("/admin/" ++ join_slash ["orders"; "2024"]))
  = [(AdminPanel, [("*", join_slash ["orders"; "2024"])])]
  /\ matches "/admin" = [(AdminPanel, [("*", "")])]
  /\ Forall (fun to => exists params, route_of to = Some (AdminPanel, params))
            (Render.links AdminPanel.panel).
Proof.
  apply (admin_paths_reach_the_panel ["orders"; "2024"]). reflexivity.
Defined.

End Search.

(* ================================================================== *)
(** ** More on the session store and its callers *)

Section SessionCallers.
Import Auth.

(** Once a program has ended, what settles later changes nothing. *)
Lemma settled_stays {S A : Type} (os : list outcome) (c : config S A) :
  outstanding c = false -> fold_left (fun c o => settle o c) os c = c.
Proof.
  intros H. induction os as [| o os IH]; cbn [fold_left]; [reflexivity |].
  assert (E : settle o c = c).
  { unfold settle, outstanding in *. destruct (now c); [reflexivity | discriminate]. }
  now rewrite E.
Qed.

Lemma run_cons {S A : Type} (o : outcome) (os : list outcome)
  (m : prog S A) (s : S) :
  outstanding (run [o] m s) = false -> run (o :: os) m s = run [o] m s.
Proof.
  intros H. unfold run in *. cbn [fold_left] in *. now apply settled_stays.
Qed.

Lemma login_unreadable s c r :
  loose_eq_null c = false -> loose_eq_null (data r) = true ->
  run [Resolved r] (login c) s
  = Config s
           [Requested (Request POST "/auth/login"
                         (VObj [("email", get_total c "email");
                                ("password", get_total c "password")]))]
           (Finished (inl TypeError)).
Proof.
  intros Hc Hr. unfold run, start, login; cbn [fold_left].
  rewrite (get_present c "email" Hc), (get_present c "password" Hc).
  cbn. destruct (data r); try discriminate Hr; reflexivity.
Qed.

Lemma login_refused s c :
  loose_eq_null c = true ->
  start (login c) s = Config s [] (Finished (inl TypeError)).
Proof.
  intros Hc. destruct c; try discriminate Hc; reflexivity.
Qed.

Lemma register_unreadable s p r :
  loose_eq_null (data r) = true ->
  run [Resolved r] (register p) s
  = Config s [Requested (Request POST "/auth/register" p)]
           (Finished (inl TypeError)).
Proof.
  intros Hr. unfold run, start, register; cbn.
  destruct (data r); try discriminate Hr; reflexivity.
Qed.

(** X6: [login] called without a credentials object (null or
    undefined) fails with a TypeError before anything is sent: no
    request, no state change, whatever settles afterwards. *)
Theorem login_without_credentials
  (c : value) (os : list outcome) (s : store)
  (Hc : loose_eq_null c = true) :
  run os (login c) s = Config s [] (Finished (inl TypeError)).
Proof.
  unfold run. rewrite (login_refused s c Hc). now apply settled_stays.
Qed.

Lemma login_without_credentials_witness :
  run [Resolved (Response Sample.payload)] (login VUndefined) init
  = Config init [] (Finished (inl TypeError)).
Proof.
  apply (login_without_credentials VUndefined). reflexivity.
Defined.

Lemma perform_loading (x : Spec.op) (s : store) :
  loading (Spec.perform x s)
  = match x with
    | Spec.Initialize _ => false
    | _ => loading s
    end.
Proof.
  destruct x as [o | c o | p o | o]; destruct o as [r | e];
    cbn [Spec.perform].
  - now rewrite initialize_resolved.
  - now rewrite initialize_rejected.
  - destruct (loose_eq_null c) eqn:Hc.
    + unfold run. rewrite (login_refused s c Hc). reflexivity.
    + destruct (loose_eq_null (data r)) eqn:Hr.
      * now rewrite (login_unreadable s c r Hc Hr).
      * now rewrite (login_resolved s c r _ Hc (get_present _ _ Hr)).
  - destruct (loose_eq_null c) eqn:Hc.
    + unfold run. rewrite (login_refused s c Hc). reflexivity.
    + now rewrite (login_rejected s c e Hc).
  - destruct (loose_eq_null (data r)) eqn:Hr.
    + now rewrite (register_unreadable s p r Hr).
    + now rewrite (register_resolved s p r _ (get_present _ _ Hr)).
  - reflexivity.
  - reflexivity.
  - reflexivity.
Qed.

(** X7: only the startup probe touches the loading flag: [login],
    [register] and [logout] leave it as it is, and once the probe has
    settled, in either way, the store is never loading again, whatever
    operations follow and however they end. *)
Theorem loading_never_returns (o : outcome) (ops : list Spec.op) (s : store) :
  (forall x, loading (Spec.perform x s)
             = match x with
               | Spec.Initialize _ => false
               | _ => loading s
               end)
  /\ Forall (fun s' => loading s' = false)
            (Spec.states ops (Spec.perform (Spec.Initialize o) s)).
Proof.
  split; [intros x; apply perform_loading |].
  assert (H : loading (Spec.perform (Spec.Initialize o) s) = false)
    by now rewrite perform_loading.
  revert H. generalize (Spec.perform (Spec.Initialize o) s).
  induction ops as [| x rest IH]; intros s0 H0; cbn [Spec.states].
  - constructor; [exact H0 | constructor].
  - constructor; [exact H0 |].
    apply IH. rewrite perform_loading. now destruct x.
Qed.

(** X8: the login and register forms.  However the request settles, the
    submit handler ends without an error after exactly one request, and
    does exactly one of two things: it navigates home, when the response
    carries a payload, whose [user] is then stored; or it shows its one
    alert and leaves the store as it was, when the request failed and
    also when it succeeded with no payload to read. *)
Theorem forms_navigate_or_alert
  (s : store) (name email password : string) (o : outcome) :
  submitted (login_request email password) "ورود ناموفق" s o
            (run [o] (LoginPage.submit email password) s)
  /\ submitted (register_request name email password) "ثبت‌نام ناموفق" s o
               (run [o] (RegisterPage.submit name email password) s).
Proof.
  unfold submitted.
  destruct o as [r | e].
  - destruct (loose_eq_null (data r)) eqn:Hr.
    + split.
      * unfold run, start, LoginPage.submit, login; cbn.
        destruct (data r); try discriminate Hr; cbn; auto.
      * unfold run, start, RegisterPage.submit, register; cbn.
        destruct (data r); try discriminate Hr; cbn; auto.
    + split.
      * unfold run, start, LoginPage.submit, login; cbn.
        rewrite (get_present _ "user" Hr). cbn. auto.
      * unfold run, start, RegisterPage.submit, register; cbn.
        rewrite (get_present _ "user" Hr). cbn. auto.
  - split; cbn; auto.
Qed.

Lemma forms_helper s email password r :
  loose_eq_null (data r) = false ->
  let c := run [Resolved r] (LoginPage.submit email password) s in
  navigations (trace c) = ["/"] /\ alerts (trace c) = []
  /\ st c = Store (get_total (data r) "user") (loading s).
Proof.
  intros Hr. unfold run, start, LoginPage.submit, login; cbn.
  rewrite (get_present _ "user" Hr). cbn. auto.
Qed.

(** X9: a login response whose payload has no [user] (or a null one)
    counts as a success: the form navigates home and shows no alert,
    yet no user is stored and the profile menu still offers to log
    in. *)
Theorem login_without_user_goes_home
  (s : store) (email password : string) (r : response)
  (Hr : loose_eq_null (data r) = false)
  (Hu : loose_eq_null (get_total (data r) "user") = true) :
  let c := run [Resolved r] (LoginPage.submit email password) s in
  navigations (trace c) = ["/"]
  /\ alerts (trace c) = []
  /\ Spec.absent (user (st c))
  /\ ProfileMenu.render (user (st c)) = ProfileMenu.login_link.
Proof.
  cbn zeta.
  destruct (forms_helper s email password r Hr) as (Hn & Ha & Hs).
  rewrite Hn, Ha, Hs. cbn [st user].
  repeat split; try exact Hu.
  apply login_link_iff.
  destruct (get_total (data r) "user"); try discriminate Hu; reflexivity.
Qed.

Lemma login_without_user_goes_home_witness :
  let c := run [Resolved (Response (VObj [("ok", VBool true)]))]
               (LoginPage.submit "sara@example.com" "secret") init in
  navigations (trace c) = ["/"]
  /\ alerts (trace c) = []
  /\ Spec.absent (user (st c))
  /\ ProfileMenu.render (user (st c)) = ProfileMenu.login_link.
Proof.
  apply (login_without_user_goes_home init "sara@example.com" "secret"
           (Response (VObj [("ok", VBool true)]))); reflexivity.
Defined.

Lemma quiet_settled {A : Type} (o : outcome) (os : list outcome)
  (m : prog store A) (s : store) :
  outstanding (run [o] m s) = false ->
  quiet (run [o] m s) -> quiet (run (o :: os) m s).
Proof. intros H Hq. now rewrite run_cons. Qed.

Ltac quiet_now := unfold quiet; cbn; repeat split; auto; lia.

(** X10: no operation of the session store retries or talks to the
    user: however many times and however its requests settle,
    [initialize], [login], [register] and [logout] each send one request
    at most, show no alert and navigate nowhere. *)
Theorem store_operations_are_quiet
  (os : list outcome) (s : store) (c p : value) :
  quiet (run os initialize s)
  /\ quiet (run os (login c) s)
  /\ quiet (run os (register p) s)
  /\ quiet (run os logout s).
Proof.
  assert (Hlogin : quiet (run os (login c) s)).
  { destruct (loose_eq_null c) eqn:Hc.
    - unfold run. rewrite (login_refused s c Hc), settled_stays by reflexivity.
      quiet_now.
    - destruct os as [| o os].
      + unfold run, start, login; cbn [fold_left].
        rewrite (get_present c "email" Hc), (get_present c "password" Hc).
        quiet_now.
      + destruct o as [r | e].
        * destruct (loose_eq_null (data r)) eqn:Hr.
          -- apply quiet_settled;
               rewrite (login_unreadable s c r Hc Hr);
               [reflexivity | quiet_now].
          -- apply quiet_settled;
               rewrite (login_resolved s c r _ Hc (get_present _ _ Hr));
               [reflexivity | quiet_now].
        * apply quiet_settled; rewrite (login_rejected s c e Hc);
            [reflexivity | quiet_now]. }
  split; [| split; [exact Hlogin | split]].
  - destruct os as [| [r | e] os]; [quiet_now | |];
      apply quiet_settled; try reflexivity; quiet_now.
  - destruct os as [| [r | e] os]; [quiet_now | |].
    + destruct (loose_eq_null (data r)) eqn:Hr.
      * apply quiet_settled; rewrite (register_unreadable s p r Hr);
          [reflexivity | quiet_now].
      * apply quiet_settled;
          rewrite (register_resolved s p r _ (get_present _ _ Hr));
          [reflexivity | quiet_now].
    + apply quiet_settled; try reflexivity; quiet_now.
  - destruct os as [| [r | e] os]; [quiet_now | |];
      apply quiet_settled; try reflexivity; quiet_now.
Qed.

(** X11: the logout button.  The click sends the logout request and
    navigates home at once, while the request is outstanding and the
    user still stored.  When the request then succeeds the user is
    cleared; when it fails the user stays stored, no alert is shown and
    the failure is left with nobody to handle it. *)
Theorem logout_click_navigates_first (s : store) (o : outcome) :
  let c0 := LogoutButton.click s in
  let c1 := settle o c0 in
  (trace c0 = [Requested (Request POST "/auth/logout" VUndefined);
               Navigated "/"]
   /\ st c0 = s /\ outstanding c0 = true)
  /\ alerts (trace c1) = []
  /\ navigations (trace c1) = ["/"]
  /\ match o with
     | Resolved _ => now c1 = Finished (inr tt) /\ user (st c1) = VNull
     | Rejected e => now c1 = Finished (inl e) /\ st c1 = s
     end.
Proof.
  destruct o as [r | e]; cbn; repeat split; reflexivity.
Qed.

End SessionCallers.

(* ================================================================== *)
(** ** What is rendered *)

Section Rendered.
Import Render Shape Router.

Variable format_coerced : value -> string.
Variable large_number_text : Z -> string.
Variable object_text : value -> exn + string.
Variable coerced_positive : value -> exn + bool.

#[local] Abbreviation to_text := (Render.to_text large_number_text object_text).
#[local] Abbreviation ProductCard :=
  (Render.ProductCard format_coerced large_number_text object_text).
#[local] Abbreviation HomeView :=
  (Render.Home format_coerced large_number_text object_text).
#[local] Abbreviation CategoryView :=
  (Render.CategoryPage format_coerced large_number_text object_text).
#[local] Abbreviation CartView := (Render.CartPage format_coerced).
#[local] Abbreviation CartRow := (Render.CartRow format_coerced).
#[local] Abbreviation CartIcon := (Render.CartIcon coerced_positive).
#[local] Abbreviation MenuEntry :=
  (Render.MenuEntry large_number_text object_text coerced_positive).
#[local] Abbreviation SubLink := (Render.SubLink large_number_text object_text).
#[local] Abbreviation Menu :=
  (Render.MultiLevelMenu large_number_text object_text coerced_positive).

Definition ident_text (i : ident) : string :=
  match i with
  | IdText s => s
  | IdNumber n => Render.number_text large_number_text (Z.of_N n)
  end.

Lemma to_text_ident (i : ident) : to_text (ident_value i) = inr (ident_text i).
Proof. destruct i; reflexivity. Qed.

Lemma links_elem (tag cls : string) (kids : list node) :
  links (Elem tag cls kids) = flat_map links kids.
Proof.
  induction kids as [| k kids IH]; [reflexivity |].
  cbn [flat_map]. rewrite <- IH. reflexivity.
Qed.

Lemma links_link (to cls : string) (kids : list node) :
  links (Link to cls kids) = to :: flat_map links kids.
Proof.
  rewrite <- (links_elem "" "" kids). reflexivity.
Qed.

Lemma map_all_total {A B : Type} (f : A -> exn + B) (g : A -> B) (l : list A) :
  (forall x, In x l -> f x = inr (g x)) -> map_all f l = inr (map g l).
Proof.
  induction l as [| x l IH]; intros H; cbn [map_all map]; [reflexivity |].
  rewrite (H x (or_introl eq_refl)), IH; [reflexivity |].
  intros y Hy. apply H. now right.
Qed.

Lemma card_of_product (p : product) :
  exists card,
    ProductCard (product_value p) = inr card
    /\ links card = ["/product/" ++ ident_text (product_id p)].
Proof.
  unfold Render.ProductCard, product_value. cbn [get lookup String.eqb].
  cbn. rewrite to_text_ident. eexists. split; [reflexivity |].
  rewrite links_link. reflexivity.
Qed.

Lemma cards_of_products (ps : list product) :
  exists cards,
    map_all ProductCard (map product_value ps) = inr cards
    /\ List.length cards = List.length ps
    /\ flat_map links cards
       = map (fun p => "/product/" ++ ident_text (product_id p)) ps.
Proof.
  induction ps as [| p ps (cards & E & Hlen & Hl)]; cbn [map map_all].
  - exists []. repeat split.
  - destruct (card_of_product p) as (card & Ec & Hc).
    rewrite Ec, E. exists (card :: cards). cbn [flat_map List.length map].
    rewrite Hc, Hl, Hlen. repeat split.
Qed.

Lemma product_cards_helper (ps : list product) (cats : value) :
  exists tree,
    HomeView (Home.State (VArr (map product_value ps)) cats) = inr tree
    /\ links tree = map (fun p => "/product/" ++ ident_text (product_id p)) ps.
Proof.
  destruct (cards_of_products ps) as (cards & E & Hlen & Hl).
  unfold Render.Home, map_array. cbn [Home.products]. rewrite E.
  eexists. split; [reflexivity |].
  rewrite !links_elem. cbn [flat_map]. rewrite !links_elem.
  cbn [flat_map]. rewrite !links_elem, Hl. cbn. now rewrite !app_nil_r.
Qed.

(** X12: for any list of products, the home page and the category page
    render one card per product, in order, and the links of the page
    are exactly the links of the cards: the i-th goes to [/product/]
    and the id of the i-th product as the template literal writes it (a
    text as it is, a safe integer in digits, any other number as the
    platform writes it). *)
Theorem product_cards_follow_the_list (ps : list product) (cats : value) :
  exists cards,
    map_all ProductCard (map product_value ps) = inr cards
    /\ List.length cards = List.length ps
    /\ (exists tree,
          HomeView (Home.State (VArr (map product_value ps)) cats) = inr tree
          /\ links tree
             = map (fun p => "/product/" ++ ident_text (product_id p)) ps)
    /\ (exists tree,
          CategoryView (VArr (map product_value ps)) = inr tree
          /\ links tree
             = map (fun p => "/product/" ++ ident_text (product_id p)) ps).
Proof.
  destruct (cards_of_products ps) as (cards & E & Hlen & Hl).
  exists cards. split; [exact E |]. split; [exact Hlen |]. split.
  - unfold Render.Home, map_array. cbn [Home.products]. rewrite E.
    eexists. split; [reflexivity |].
    rewrite !links_elem. cbn [flat_map]. rewrite !links_elem.
    cbn [flat_map]. rewrite !links_elem, Hl. cbn. now rewrite !app_nil_r.
  - unfold Render.CategoryPage, map_array. rewrite E.
    eexists. split; [reflexivity |].
    rewrite !links_elem. cbn [flat_map]. rewrite !links_elem, Hl. cbn.
    now rewrite !app_nil_r.
Qed.

Definition category_link (i : ident) : string := "/category/" ++ ident_text i.

Lemma sublinks_of (subs : list subcategory) :
  exists ns,
    map_all SubLink (map sub_value subs) = inr ns
    /\ flat_map links ns = map (fun s => category_link (sub_id s)) subs.
Proof.
  induction subs as [| s subs (ns & E & Hl)]; cbn [map map_all].
  - exists []. split; reflexivity.
  - unfold Render.SubLink at 1, sub_value at 1. cbn [get lookup String.eqb].
    cbn -[links]. rewrite to_text_ident, E. eexists. split; [reflexivity |].
    cbn [flat_map]. rewrite links_link, Hl. reflexivity.
Qed.

Lemma entry_of_category (c : category) :
  exists entry,
    MenuEntry (cat_value c) = inr entry
    /\ links entry
       = category_link (cat_id c)
         :: map (fun s => category_link (sub_id s)) (subs_of c).
Proof.
  destruct c as [id name [subs |]]; unfold Render.MenuEntry, cat_value, subs_of;
    cbn [cat_id cat_name cat_children get get_total lookup String.eqb].
  - cbn -[links map_all]. rewrite to_text_ident.
    unfold Render.Submenu. cbn [truthy].
    destruct subs as [| s subs].
    + cbn. eexists. split; reflexivity.
    + cbn [length_positive].
      destruct (sublinks_of (s :: subs)) as (ns & E & Hl).
      unfold map_array. rewrite E. eexists. split; [reflexivity |].
      rewrite links_elem. cbn [flat_map]. rewrite links_link, links_elem, Hl.
      cbn. now rewrite !app_nil_r.
  - cbn -[links]. rewrite to_text_ident. cbn. eexists. split; reflexivity.
Qed.

Lemma entries_of_categories (cs : list category) :
  exists entries,
    map_all MenuEntry (map cat_value cs) = inr entries
    /\ List.length entries = List.length cs
    /\ flat_map links entries = map category_link (menu_idents cs).
Proof.
  induction cs as [| c cs (es & E & Hlen & Hl)]; cbn [map map_all].
  - exists []. repeat split.
  - destruct (entry_of_category c) as (e & Ee & He).
    rewrite Ee, E. exists (e :: es).
    unfold menu_idents in *. cbn [flat_map List.length map].
    rewrite He, Hl, Hlen, map_app. cbn [map]. rewrite map_map.
    repeat split.
Qed.

Lemma menu_helper (cs : list category) (q : string) (count : Z) (user : value) :
  exists tree,
    Menu (VArr (map cat_value cs)) q (VNum count) user = inr tree
    /\ links tree
       = ("/" :: map category_link (menu_idents cs)
          ++ "/cart" :: (if not_ user then ["/login"] else []))%list.
Proof.
  destruct (entries_of_categories cs) as (es & E & Hlen & Hl).
  eexists.
  unfold Render.MultiLevelMenu, map_array. rewrite E.
  cbn [Render.CartIcon gt_zero]. split; [reflexivity |].
  unfold ProfileMenu.render, ProfileMenu.login_link, Render.SearchBar, badge.
  destruct (not_ user), (0 <? count)%Z;
    repeat first [rewrite links_elem | rewrite links_link
                 | progress cbn [flat_map] | progress cbn [links]];
    rewrite Hl, ?app_nil_r; cbn [List.app];
    rewrite <- ?app_assoc; reflexivity.
Qed.

(** X13: for any list of categories, whether their [children] are
    there, empty or missing, the menu renders one entry per category,
    and its links are, in order: the home link, then for each category
    its link followed by those of its children, each to [/category/] and
    the id as the template literal writes it, then the cart link, and
    the login link exactly when no user is stored. *)
Theorem menu_links_follow_the_categories
  (cs : list category) (q : string) (count : Z) (user : value) :
  exists entries tree,
    map_all MenuEntry (map cat_value cs) = inr entries
    /\ List.length entries = List.length cs
    /\ Menu (VArr (map cat_value cs)) q (VNum count) user = inr tree
    /\ links tree
       = ("/" :: map category_link (menu_idents cs)
          ++ "/cart" :: (if not_ user then ["/login"] else []))%list.
Proof.
  destruct (entries_of_categories cs) as (es & E & Hlen & Hl).
  exists es. eexists. split; [exact E |]. split; [exact Hlen |].
  unfold Render.MultiLevelMenu, map_array. rewrite E.
  cbn [Render.CartIcon gt_zero]. split; [reflexivity |].
  unfold ProfileMenu.render, ProfileMenu.login_link, Render.SearchBar, badge.
  destruct (not_ user), (0 <? count)%Z;
    repeat first [rewrite links_elem | rewrite links_link
                 | progress cbn [flat_map] | progress cbn [links]];
    rewrite Hl, ?app_nil_r; cbn [List.app];
    rewrite <- ?app_assoc; reflexivity.
Qed.

Lemma digits_plain (u : Decimal.uint) :
  forallb URI.unreserved
    (list_ascii_of_string (DecimalString.NilEmpty.string_of_uint u)) = true.
Proof.
  induction u; cbn [DecimalString.NilEmpty.string_of_uint list_ascii_of_string
                    forallb]; try reflexivity; rewrite IHu; reflexivity.
Qed.

Lemma number_plain (n : N) :
  URI.plain (DecimalString.NilEmpty.string_of_uint (N.to_uint n)) = true.
Proof.
  unfold URI.plain. rewrite digits_plain, andb_true_r.
  destruct n as [| p]; [reflexivity |].
  pose proof (DecimalPos.Unsigned.to_uint_nonnil p) as H.
  cbn [N.to_uint]. destruct (Pos.to_uint p); try reflexivity. now elim H.
Qed.

Lemma ident_plain (i : ident) :
  routable i = true -> URI.plain (ident_text i) = true.
Proof.
  destruct i as [s | n]; cbn [routable ident_text]; [auto |].
  intros H. apply N.leb_le in H. unfold Render.number_text.
  assert (Ha : Intl.safe (Z.of_N n) = true).
  { unfold Intl.safe. apply Z.leb_le.
    rewrite Z.abs_eq by apply N2Z.is_nonneg.
    change (2 ^ 53)%Z with (Z.of_N (2 ^ 53)). now apply N2Z.inj_le. }
  assert (Hs : (Z.of_N n <? 0)%Z = false).
  { apply Z.ltb_ge. apply N2Z.is_nonneg. }
  rewrite Ha, Hs, Zabs2N.id. apply number_plain.
Qed.

(** The link of a product reaches the product page with its id, which
    then asks for that product; likewise a category link. *)
Definition reaches_product (i : ident) (to : string) : Prop :=
  matches (pathname_of to) = [(ProductDetails, [("id", ident_text i)])]
  /\ requests (trace (start (ProductDetails.effect (ident_text i))
                            ProductDetails.init))
     = [Request GET ("/products/" ++ ident_text i) VUndefined].

Definition reaches_category (i : ident) (to : string) : Prop :=
  matches (pathname_of to) = [(CategoryPage, [("id", ident_text i)])]
  /\ CategoryPage.requests_of_renders [ident_text i]
     = [Request GET ("/categories/" ++ ident_text i ++ "/products") VUndefined].

Lemma Forall2_map {A B : Type} (R : A -> B -> Prop) (f : A -> B) (l : list A) :
  Forall (fun x => R x (f x)) l -> Forall2 R l (map f l).
Proof. induction 1; cbn [map]; constructor; assumption. Qed.

(** X14: when the ids of the products and of the categories are
    routable (plain texts, or numbers up to 2^53), every card of
    the home page leads to the product page of its product, which asks
    the API for that product, and every entry of the menu leads to the
    category page of its category, which asks for that category's
    products. *)
Theorem rendered_links_reach_their_pages
  (ps : list product) (cats : value) (cs : list category) (q : string)
  (count : Z) (user : value)
  (Hps : forallb (fun p => routable (product_id p)) ps = true)
  (Hcs : forallb routable (menu_idents cs) = true) :
  (exists tree,
     HomeView (Home.State (VArr (map product_value ps)) cats) = inr tree
     /\ Forall2 (fun p to => reaches_product (product_id p) to) ps (links tree))
  /\ (exists tree tos,
        Menu (VArr (map cat_value cs)) q (VNum count) user = inr tree
        /\ links tree
           = ("/" :: tos ++ "/cart" :: (if not_ user then ["/login"] else []))%list
        /\ Forall2 reaches_category (menu_idents cs) tos).
Proof.
  split.
  - destruct (product_cards_helper ps cats) as (tree & E & Hl).
    exists tree. split; [exact E |]. rewrite Hl.
    apply (Forall2_map (fun p to => reaches_product (product_id p) to)).
    rewrite forallb_forall in Hps. apply Forall_forall. intros p Hp.
    split; [| reflexivity].
    apply plain_product_matches, ident_plain, Hps, Hp.
  - destruct (menu_helper cs q count user) as (tree & E & Hl).
    exists tree, (map category_link (menu_idents cs)).
    split; [exact E |]. split; [exact Hl |].
    apply Forall2_map.
    rewrite forallb_forall in Hcs. apply Forall_forall. intros i Hi.
    split; [| reflexivity].
    apply plain_category_matches, ident_plain, Hcs, Hi.
Qed.

(** X15: the list views take what the API answered as it is.  When
    the stored products or categories are not an array, the home page,
    the category page and the menu throw a TypeError instead of
    rendering. *)
Theorem list_views_need_arrays
  (v cats : value) (q : string) (count user : value)
  (Hv : is_array v = false) :
  HomeView (Home.State v cats) = inl TypeError
  /\ CategoryView v = inl TypeError
  /\ Menu v q count user = inl TypeError.
Proof.
  destruct v; try discriminate Hv; repeat split; reflexivity.
Qed.

Lemma row_of_line (it : value) :
  if broken_line it then CartRow it = inl TypeError
  else exists row, CartRow it = inr row.
Proof.
  unfold broken_line, Render.CartRow.
  destruct (loose_eq_null it) eqn:Hit; cbn [orb].
  - destruct it; try discriminate Hit; reflexivity.
  - rewrite (get_present it "id" Hit).
    destruct (loose_eq_null (get_total it "product")) eqn:Hp.
    + destruct (get_total it "product"); try discriminate Hp; reflexivity.
    + rewrite (get_present _ "image" Hp). eexists. reflexivity.
Qed.

Lemma rows_of_lines (l : list value) :
  if existsb broken_line l then map_all CartRow l = inl TypeError
  else exists rows,
         map_all CartRow l = inr rows /\ List.length rows = List.length l.
Proof.
  induction l as [| it l IH]; cbn [existsb map_all].
  - exists []. split; reflexivity.
  - pose proof (row_of_line it) as Hr.
    destruct (broken_line it); cbn [orb].
    + now rewrite Hr.
    + destruct Hr as (row & ->).
      destruct (existsb broken_line l).
      * now rewrite IH.
      * destruct IH as (rows & -> & Hlen). exists (row :: rows).
        cbn [List.length]. now rewrite Hlen.
Qed.

(** X16: a cart that is not empty.  When one of its lines is null or
    undefined, or has no [product], the cart page throws a TypeError;
    otherwise it renders one row per line (the number formatter of the
    platform being taken not to throw on the totals). *)
Theorem cart_lines_need_products (it : value) (l : list value) :
  if existsb broken_line (it :: l)
  then CartView (VArr (it :: l)) = inl TypeError
  else exists rows,
         CartView (VArr (it :: l))
         = inr (cart_frame (Elem "div" "space-y-4" rows))
         /\ List.length rows = List.length (it :: l).
Proof.
  pose proof (rows_of_lines (it :: l)) as H.
  unfold Render.CartPage, map_array. cbn [length_is_zero].
  destruct (existsb broken_line (it :: l)).
  - now rewrite H.
  - destruct H as (rows & -> & Hlen). exists rows. split; [reflexivity | exact Hlen].
Qed.

(** X17: what the cart page shows after its request succeeded.  With no
    payload at all the read of [items] fails inside the promise chain,
    is swallowed, and the cart is shown empty; with a payload that has
    no [items] the page throws a TypeError; otherwise it shows the
    [items] of the payload. *)
Theorem cart_page_after_response (r : response) :
  CartView (st (run [Resolved r] CartPage.effect CartPage.init))
  = if loose_eq_null (data r) then inr (cart_frame empty_cart)
    else if loose_eq_null (get_total (data r) "items") then inl TypeError
         else CartView (get_total (data r) "items").
Proof.
  unfold run, start, CartPage.effect; cbn.
  destruct (loose_eq_null (data r)) eqn:Hr.
  - destruct (data r); try discriminate Hr; reflexivity.
  - rewrite (get_present _ "items" Hr). cbn.
    destruct (get_total (data r) "items"); reflexivity.
Qed.

(** X18: what is on screen after a read request failed on a freshly
    mounted view: the home and category pages render with no card, the
    cart says it is empty, the cart icon has no badge, the product page
    keeps its loading text with nothing outstanding that could replace
    it, and the menu shows the built-in categories. *)
Theorem display_after_failed_fetch
  (e : exn) (id q : string) (count : Z) :
  (exists tree,
     HomeView (st (run [Rejected e] Home.effect_products Home.init)) = inr tree
     /\ links tree = [])
  /\ (exists tree,
        CategoryView (st (run [Rejected e] (CategoryPage.effect id)
                              CategoryPage.init)) = inr tree
        /\ links tree = [])
  /\ CartView (st (run [Rejected e] CartPage.effect CartPage.init))
     = inr (cart_frame empty_cart)
  /\ CartIcon (st (run [Rejected e] CartIcon.effect CartIcon.init))
     = inr (Link "/cart" "mr-4" [Text "🛒 "; Expr (VBool false)])
  /\ (let c := run [Rejected e] (ProductDetails.effect id) ProductDetails.init in
      ProductDetails.render format_coerced (st c)
      = Elem "div" "p-6" [Text "در حال بارگذاری..."]
      /\ outstanding c = false)
  /\ (exists tree,
        Menu (st (run [Rejected e] App.effect App.init)) q (VNum count) VNull
        = inr tree
        /\ links tree
           = ["/"; "/category/1"; "/category/11"; "/category/12";
              "/category/2"; "/cart"; "/login"]).
Proof.
  split; [eexists; split; reflexivity |].
  split; [eexists; split; reflexivity |].
  split; [reflexivity |].
  split; [reflexivity |].
  split; [split; reflexivity |].
  destruct (0 <? count)%Z eqn:Hc;
    eexists; (split; [cbn; rewrite Hc; reflexivity | reflexivity]).
Qed.

(** X19: the product page keeps its state when the id changes.  After
    a product was loaded and the request for another id failed, the page
    still holds the first product, and its add-to-cart button posts the
    id of that first product. *)
Theorem stale_product_after_failed_fetch
  (a : value) (id id' : string) (e : exn) (Ha : truthy a = true) :
  let s1 := st (run [Resolved (Response a)] (ProductDetails.effect id)
                    ProductDetails.init) in
  let s2 := st (run [Rejected e] (ProductDetails.effect id') s1) in
  ProductDetails.p s2 = a
  /\ ProductDetails.render format_coerced s2
     = ProductDetails.render format_coerced s1
  /\ requests (trace (start (ProductDetails.addToCart (ProductDetails.p s2)) s2))
     = [ProductDetails.cart_add (get_total a "id")].
Proof.
  cbn zeta. split; [reflexivity |]. split; [reflexivity |].
  unfold start, ProductDetails.addToCart; cbn.
  rewrite (get_present a "id" (truthy_present a Ha)). reflexivity.
Qed.

(** X20: responses are applied in the order they arrive, not in the
    order of the requests.  On the category page, when the id changes
    while the first request is outstanding and the answer to the first
    request arrives after the answer to the second, the page ends up
    holding the products of the first id. *)
Theorem late_response_wins (id id' : string) (r r' : response)
  (Hne : (id =? id')%string = false) :
  let t1 := start (CategoryPage.effect id) CategoryPage.init in
  let t2 := start (CategoryPage.effect id') (st t1) in
  let after2 := settle (Resolved r') t2 in
  let after1 := settle (Resolved r) (resume_in (st after2) t1) in
  CategoryPage.requests_of_renders [id; id']
  = (requests (trace t1) ++ requests (trace t2))%list
  /\ (outstanding t1 = true /\ outstanding t2 = true)
  /\ st after2 = data r'
  /\ st after1 = data r
  /\ outstanding after1 = false.
Proof.
  cbn zeta. split; [| repeat split].
  unfold CategoryPage.requests_of_renders. cbn [fired due].
  rewrite Hne. reflexivity.
Qed.

End Rendered.

(** The built-in menu of the source is the menu record read as a value. *)
Lemma builtin_menu_is_fallback :
  VArr (map Shape.cat_value Shape.builtin_menu) = App.fallback.
Proof. reflexivity. Qed.

Lemma rendered_links_reach_their_pages_witness :
  (exists tree,
     Render.Home (fun _ => "") (fun _ => "") (fun _ => inl TypeError)
       (Home.State (VArr (map Shape.product_value [Shape.gold_ring])) (VArr []))
     = inr tree
     /\ Forall2 (fun p to =>
                  reaches_product (fun _ => "") (Shape.product_id p) to)
               [Shape.gold_ring] (Render.links tree))
  /\ (exists tree tos,
        Render.MultiLevelMenu (fun _ => "") (fun _ => inl TypeError)
          (fun _ => inr false)
          (VArr (map Shape.cat_value Shape.builtin_menu)) "" (VNum 0) VNull
        = inr tree
        /\ Render.links tree
           = ("/" :: tos ++ "/cart" :: (if not_ VNull then ["/login"] else []))%list
        /\ Forall2 (reaches_category (fun _ => ""))
                   (Shape.menu_idents Shape.builtin_menu) tos).
Proof.
  apply (rendered_links_reach_their_pages
           (fun _ => "") (fun _ => "") (fun _ => inl TypeError)
           (fun _ => inr false)
           [Shape.gold_ring] (VArr []) Shape.builtin_menu "" 0 VNull);
    reflexivity.
Defined.

Lemma list_views_need_arrays_witness :
  Render.Home (fun _ => "") (fun _ => "") (fun _ => inl TypeError)
    (Home.State (VObj [("results", VArr [])]) (VArr []))
  = inl TypeError
  /\ Render.CategoryPage (fun _ => "") (fun _ => "") (fun _ => inl TypeError)
       (VObj [("results", VArr [])])
     = inl TypeError
  /\ Render.MultiLevelMenu (fun _ => "") (fun _ => inl TypeError)
       (fun _ => inr false) (VObj [("results", VArr [])]) "" (VNum 0) VNull
     = inl TypeError.
Proof.
  apply (list_views_need_arrays (fun _ => "") (fun _ => "")
           (fun _ => inl TypeError) (fun _ => inr false)
           (VObj [("results", VArr [])]) (VArr []) "" (VNum 0) VNull).
  reflexivity.
Defined.

Lemma stale_product_after_failed_fetch_witness :
  let s1 := st (run [Resolved (Response Sample.ring)]
                    (ProductDetails.effect "42") ProductDetails.init) in
  let s2 := st (run [Rejected (AxiosError VNull)]
                    (ProductDetails.effect "43") s1) in
  ProductDetails.p s2 = Sample.ring
  /\ ProductDetails.render (fun _ => "") s2
     = ProductDetails.render (fun _ => "") s1
  /\ requests (trace (start (ProductDetails.addToCart (ProductDetails.p s2)) s2))
     = [ProductDetails.cart_add (get_total Sample.ring "id")].
Proof.
  apply (stale_product_after_failed_fetch (fun _ => "") Sample.ring "42" "43"
           (AxiosError VNull)).
  reflexivity.
Defined.

Lemma late_response_wins_witness :
  let r := Response (VArr [Sample.ring]) in
  let r' := Response (VArr []) in
  let t1 := start (CategoryPage.effect "11") CategoryPage.init in
  let t2 := start (CategoryPage.effect "12") (st t1) in
  let after2 := settle (Resolved r') t2 in
  let after1 := settle (Resolved r) (resume_in (st after2) t1) in
  CategoryPage.requests_of_renders ["11"; "12"]
  = (requests (trace t1) ++ requests (trace t2))%list
  /\ (outstanding t1 = true /\ outstanding t2 = true)
  /\ st after2 = data r'
  /\ st after1 = data r
  /\ outstanding after1 = false.
Proof.
  apply (late_response_wins "11" "12" (Response (VArr [Sample.ring]))
           (Response (VArr []))).
  reflexivity.
Defined.
